(** * ice_breaker: a shallow embedding of the orchestration pipeline

    The development follows the layout of the repository:

    - [Py]             the Python values and operators the code relies on;
    - [Env]            exceptions, the external services and the effect monad;
    - [Linkedin]       third_parties/linkedin.py;
    - [Twitter]        third_parties/twitter.py;
    - [OutputParsers]  output_parsers.py;
    - [IceBreaker]     ice_breaker.py;
    - [App]            app.py.

    External services (HTTP, the Twitter client, the lookup agents, the
    language model) are oracles of a [world]; every call to one of them is
    recorded in a trace, so that statements about which calls were made, and
    in which order, can be expressed. *)

From stdpp Require Import base option list strings gmap fin_maps pretty.
From Stdlib Require Import ZArith QArith.Qcanon.

Set Warnings "-register-all".
#[local] Open Scope Z_scope.

(* ===================================================================== *)
(** ** Python values *)
(* ===================================================================== *)

Module Py.

(** What [response.json()] can return: [None], [bool], [int], [float],
    [str], [list] and [dict] with string keys.  A [dict] is a finite map:
    keys are unique and dictionary equality ignores insertion order.  Only
    finite floats are represented. *)
Inductive json :=
  | JNull
  | JBool (b : bool)
  | JInt (n : Z)
  | JFloat (q : Qc)
  | JStr (s : string)
  | JList (l : list json)
  | JDict (d : gmap string json).

(** [bool] is a subclass of [int] and numbers compare by value:
    [True == 1 == 1.0]. *)
Definition as_number (v : json) : option Qc :=
  match v with
  | JBool b => Some (Qc_of_Z (if b then 1 else 0))
  | JInt n => Some (Qc_of_Z n)
  | JFloat q => Some q
  | _ => None
  end.

(** The operator [==] on decoded JSON values. *)
Fixpoint py_eq (a b : json) : bool :=
  match a, b with
  | JNull, JNull => true
  | JStr s, JStr t => bool_decide (s = t)
  | JList xs, JList ys =>
      (fix go (xs ys : list json) : bool :=
         match xs, ys with
         | [], [] => true
         | x :: xs', y :: ys' => py_eq x y && go xs' ys'
         | _, _ => false
         end) xs ys
  | JDict d1, JDict d2 =>
      bool_decide (size d1 = size d2) &&
      map_fold (λ k v acc,
                acc && match d2 !! k with
                       | Some w => py_eq v w
                       | None => false
                       end) true d1
  | (JBool _ | JInt _ | JFloat _), (JBool _ | JInt _ | JFloat _) =>
      match as_number a, as_number b with
      | Some x, Some y => bool_decide (x = y)
      | _, _ => false
      end
  | _, _ => false
  end.

(** [x in l] for a list [l]: [any(x == e for e in l)]. *)
Definition py_in (x : json) (l : list json) : bool :=
  existsb (py_eq x) l.

(** [x in l] for a string [x] and a list of strings. *)
Definition str_in (x : string) (l : list string) : bool :=
  existsb (λ e, bool_decide (x = e)) l.

(** Truth value of a decoded JSON value ([not v], [v or d]). *)
Definition py_truthy (v : json) : bool :=
  match v with
  | JNull => false
  | JBool b => b
  | JInt n => negb (n =? 0)
  | JFloat q => negb (bool_decide (q = Qc_of_Z 0))
  | JStr s => negb (bool_decide (s = ""))
  | JList l => negb (bool_decide (length l = 0%nat))
  | JDict d => negb (bool_decide (size d = 0%nat))
  end.

(** Truth value of an optional string ([None] and [""] are falsy). *)
Definition str_truthy (o : option string) : bool :=
  match o with
  | Some s => negb (bool_decide (s = ""))
  | None => false
  end.

(** [str(v)], as used by the f-strings.  The text Python prints for
    floats and containers is produced by [repr]; it is taken as a
    parameter. *)
Definition py_str (repr : json → string) (v : json) : string :=
  match v with
  | JNull => "None"
  | JBool true => "True"
  | JBool false => "False"
  | JInt n => pretty n
  | JStr s => s
  | JFloat _ | JList _ | JDict _ => repr v
  end.

(** The slice [l[:n]]; a negative [n] counts from the end. *)
Definition slice_to {A} (n : Z) (l : list A) : list A :=
  if bool_decide (0 ≤ n) then take (Z.to_nat n) l
  else take (Z.to_nat (Z.of_nat (length l) + n)) l.

(** [sub in s] for strings. *)
Definition contains (sub s : string) : Prop :=
  ∃ pre post, s = pre +:+ sub +:+ post.

End Py.
Export Py.

(* ===================================================================== *)
(** ** Exceptions, external services and effects *)
(* ===================================================================== *)

Module Env.

(** The exception classes that occur.  All of them derive from
    [Exception]; [KeyboardInterrupt] and [SystemExit] (which derive from
    [BaseException] only) are process control and are not represented. *)
Inductive exn_class :=
  (* requests.exceptions *)
  | RequestException | ConnectionError | ReqTimeout | HTTPError
  | RequestsJSONDecodeError
  (* tweepy *)
  | TweepyException
  (* langchain_core.exceptions *)
  | OutputParserException
  (* builtins *)
  | ValueError | KeyError | TypeError | AttributeError | RecursionError
  | OtherException.

(** An exception object: its class and [str(e)]. *)
Record exn := Exn { exn_class_of : exn_class; exn_str : string }.

(** [isinstance(e, requests.exceptions.RequestException)].  The error
    raised by [response.json()] on a body that is not JSON is
    [requests.exceptions.JSONDecodeError], which derives from
    [InvalidJSONError] and thereby from [RequestException]
    (requests 2.27 and later). *)
Definition is_RequestException (e : exn) : bool :=
  match exn_class_of e with
  | RequestException | ConnectionError | ReqTimeout | HTTPError
  | RequestsJSONDecodeError => true
  | _ => false
  end.

(** [isinstance(e, tweepy.TweepyException)]. *)
Definition is_TweepyException (e : exn) : bool :=
  match exn_class_of e with
  | TweepyException => true
  | _ => false
  end.

(** A call either returns or raises. *)
Inductive result (A : Type) :=
  | Ok (a : A)
  | Raise (e : exn).
Arguments Ok {A} a.
Arguments Raise {A} e.

(** The dictionaries built by the tweet scrapers:
    [{"text": ..., "url": ...}]. *)
Record tweet_dict := TweetDict { text : json; url : string }.

(** Calls that leave the process. *)
Inductive event :=
  | EvRequestsGet (target : string) (params : list (string * string))
                  (timeout : Z)
  | EvGetUser (username : string)
  | EvGetUsersTweets (id max_results : Z)
  | EvLinkedinLookup (name : string)
  | EvTwitterLookup (name : string)
  | EvChainInvoke (information : gmap string json)
                  (twitter_posts : list tweet_dict).

Definition trace := list event.

(** A [requests.Response]: what [raise_for_status()] raises, if anything,
    and what [json()] returns or raises. *)
Record response := Response {
  raise_for_status : option exn;
  response_json : result json;
}.

(** The parts of [tweepy.Client] that are used.  A call returns the
    [data] attribute of the response object, [None] when it is empty. *)
Record tw_user := TwUser { user_id : Z }.
Record tw_tweet := TwTweet { tweet_id : Z; tweet_text : string }.
Record client := Client {
  get_user : trace → string → result (option tw_user);
  get_users_tweets : trace → Z → Z → result (option (list tw_tweet));
}.

(** Everything outside the repository.  An oracle sees the calls made so
    far, so a service may answer the same request differently over time. *)
Record world := World {
  (** [os.environ.get] *)
  environ : string → option string;
  (** [requests.get(url, params=..., timeout=...)] *)
  requests_get : trace → string → list (string * string) → Z
                 → result response;
  (** the module-level [twitter_client]; [None] when construction failed *)
  twitter_client : option client;
  (** [agents.linkedin_lookup_agent.lookup] *)
  linkedin_lookup_agent : trace → string → result string;
  (** [agents.twitter_lookup_agent.lookup] *)
  twitter_lookup_agent : trace → string → result string;
  (** prompt template piped into [ChatOpenAI]: the completion text *)
  llm : trace → gmap string json → list tweet_dict → result string;
  (** the JSON decoder of the output parser *)
  parse_json_markdown : string → option json;
  (** [str(e)] of the exception the output parser raises for a completion
      it rejects; the library composes that text *)
  parser_error_text : string → string;
  (** [repr] of floats and containers *)
  py_repr : json → string;
  (** [app.debug] *)
  app_debug : bool;
}.

(** Computations: a trace is threaded through, and a computation either
    returns or raises. *)
Definition M (A : Type) : Type := trace → result A * trace.

#[export] Instance M_ret : MRet M := λ A a tr, (Ok a, tr).

#[export] Instance M_bind : MBind M := λ A B f m tr,
  match m tr with
  | (Ok a, tr') => f a tr'
  | (Raise e, tr') => (Raise e, tr')
  end.

#[export] Instance result_ret : MRet result := λ A a, Ok a.

#[export] Instance result_bind : MBind result := λ A B f r,
  match r with
  | Ok a => f a
  | Raise e => Raise e
  end.

Definition raise {A} (e : exn) : M A := λ tr, (Raise e, tr).

Definition lift {A} (r : result A) : M A := λ tr, (r, tr).

(** [try: body except Exception as e: handler(e)]; an exception raised by
    the handler is not handled again. *)
Definition try_except {A} (body : M A) (handler : exn → M A) : M A :=
  λ tr, match body tr with
        | (Ok a, tr') => (Ok a, tr')
        | (Raise e, tr') => handler e tr'
        end.

(** A call to an external service. *)
Definition extern {A} (ev : event) (oracle : trace → result A) : M A :=
  λ tr, (oracle tr, tr ++ [ev]).

(** [response.raise_for_status()] *)
Definition check_status (resp : response) : result () :=
  match raise_for_status resp with
  | Some e => Raise e
  | None => Ok ()
  end.

(** [type(v).__name__] *)
Definition type_name (v : json) : string :=
  match v with
  | JNull => "NoneType"
  | JBool _ => "bool"
  | JInt _ => "int"
  | JFloat _ => "float"
  | JStr _ => "str"
  | JList _ => "list"
  | JDict _ => "dict"
  end.

Definition no_attribute (v : json) (attr : string) : exn :=
  Exn AttributeError
      ("'" +:+ type_name v +:+ "' object has no attribute '" +:+ attr +:+ "'").

(** [v.get(key, dflt)] *)
Definition dict_get (v : json) (key : string) (dflt : json) : result json :=
  match v with
  | JDict d => Ok (default dflt (d !! key))
  | _ => Raise (no_attribute v "get")
  end.

(** [v.items()] *)
Definition dict_items (v : json) : result (gmap string json) :=
  match v with
  | JDict d => Ok d
  | _ => Raise (no_attribute v "items")
  end.

End Env.
Export Env.

(* ===================================================================== *)
(** ** third_parties/linkedin.py *)
(* ===================================================================== *)

Module Linkedin.

Definition mock_data_url : string :=
  "https://gist.githubusercontent.com/emarco177/859ec7d786b45d8e3e3f688c6c9139d8/raw/32f3c85b9513994c572613f2c8b376b633bfc43f/eden-marco-scrapin.json".

Definition api_endpoint : string :=
  "https://api.scrapin.io/enrichment/profile".

(** Fields to exclude from the cleaned data. *)
Definition excluded_fields : list string := ["certifications"].

(** Values considered as empty: [[], "", None]. *)
Definition empty_values : list json := [JList []; JStr ""; JNull].

(** The dictionary comprehension of [clean_profile_data]. *)
Definition clean_profile_data (data : gmap string json)
  : gmap string json :=
  filter (λ kv : string * json,
            negb (py_in kv.2 empty_values)
            && negb (str_in kv.1 excluded_fields))
         data.

(** Lines 84-95: what is done with the response of either request. *)
Definition read_profile (resp : response) : result (gmap string json) :=
  _ ← check_status resp;
  json_data ← response_json resp;
  person_data ← dict_get json_data "person" (JDict ∅);
  data ← dict_items person_data;
  Ok (clean_profile_data data).

Section Scrape.
Context (W : world).

(** [scrape_linkedin_profile] calls itself with [mock=True]; [depth]
    bounds the nesting of calls. *)
Fixpoint scrape_linkedin_profile_rec (depth : nat)
    (linkedin_profile_url : string) (mock : bool) (timeout : Z)
  : M (gmap string json) :=
  match depth with
  | O => raise (Exn RecursionError "maximum recursion depth exceeded")
  | S depth' =>
      try_except
        (if mock then
           resp ← extern (EvRequestsGet mock_data_url [] timeout)
                         (λ tr, requests_get W tr mock_data_url [] timeout);
           lift (read_profile resp)
         else
           let api_key := environ W "SCRAPIN_API_KEY" in
           if negb (str_truthy api_key) then
             scrape_linkedin_profile_rec depth' linkedin_profile_url
                                         true timeout
           else
             let params := [("apikey", default "" api_key);
                            ("linkedInUrl", linkedin_profile_url)] in
             resp ← extern (EvRequestsGet api_endpoint params timeout)
                           (λ tr, requests_get W tr api_endpoint params
                                               timeout);
             lift (read_profile resp))
        (λ e,
           if is_RequestException e then
             if negb mock then
               scrape_linkedin_profile_rec depth' linkedin_profile_url
                                           true timeout
             else raise e
           else raise e)
  end.

(** Two levels are all that is ever entered (see
    [scrape_linkedin_profile_depth]). *)
Definition scrape_linkedin_profile
    (linkedin_profile_url : string) (mock : bool) (timeout : Z)
  : M (gmap string json) :=
  scrape_linkedin_profile_rec 2 linkedin_profile_url mock timeout.

End Scrape.

End Linkedin.
Export Linkedin.

(* ===================================================================== *)
(** ** third_parties/twitter.py *)
(* ===================================================================== *)

Module Twitter.

Definition EDEN_TWITTER_GIST : string :=
  "https://gist.githubusercontent.com/emarco177/827323bb599553d0f0e662da07b9ff68/raw/57bf38cf8acce0c87e060f9bb51f6ab72098fbd6/eden-marco-twitter.json".

(** [f"https://twitter.com/{username}/status/{id}"] *)
Definition status_url (username id : string) : string :=
  "https://twitter.com/" +:+ username +:+ "/status/" +:+ id.

(** [v[key]] for a string [key]. *)
Definition getitem (v : json) (key : string) : result json :=
  match v with
  | JDict d =>
      match d !! key with
      | Some x => Ok x
      | None => Raise (Exn KeyError ("'" +:+ key +:+ "'"))
      end
  | JList _ =>
      Raise (Exn TypeError "list indices must be integers or slices, not str")
  | JStr _ =>
      Raise (Exn TypeError "string indices must be integers, not 'str'")
  | _ =>
      Raise (Exn TypeError
                 ("'" +:+ type_name v +:+ "' object is not subscriptable"))
  end.

(** The elements iterated over by [for tweet in v[:n]].  A string is
    sliced and iterated character by character; a dictionary cannot be
    indexed by a slice. *)
Definition slice_items (v : json) (n : Z) : result (list json) :=
  match v with
  | JList l => Ok (slice_to n l)
  | JStr s =>
      Ok ((λ c, JStr (String c "")) <$> slice_to n (String.list_ascii_of_string s))
  | JDict _ => Raise (Exn TypeError "unhashable type: 'slice'")
  | _ =>
      Raise (Exn TypeError
                 ("'" +:+ type_name v +:+ "' object is not subscriptable"))
  end.

Section Scrape.
Context (W : world).

(** The loop of the fixture path (lines 158-164). *)
Fixpoint format_tweets (username : string) (tweets : list json)
  : result (list tweet_dict) :=
  match tweets with
  | [] => Ok []
  | tweet :: rest =>
      tweet_text ← getitem tweet "text";
      tweet_id ← getitem tweet "id";
      let tweet_dict :=
        {| text := tweet_text;
           url := status_url username (py_str (py_repr W) tweet_id) |} in
      tweet_list ← format_tweets username rest;
      Ok (tweet_dict :: tweet_list)
  end.

(** Lines 153-164: what is done with the response of the fixture
    request. *)
Definition read_mock_tweets (username : string) (num_tweets : Z)
    (resp : response) : result (list tweet_dict) :=
  _ ← check_status resp;
  tweets_data ← response_json resp;
  selected ← slice_items tweets_data num_tweets;
  format_tweets username selected.

(** The [try] block of [scrape_user_tweets_mock]. *)
Definition load_mock_tweets (username : string) (num_tweets : Z)
  : M (list tweet_dict) :=
  resp ← extern (EvRequestsGet EDEN_TWITTER_GIST [] 10)
                (λ tr, requests_get W tr EDEN_TWITTER_GIST [] 10);
  lift (read_mock_tweets username num_tweets resp).

Definition scrape_user_tweets_mock (username : string) (num_tweets : Z)
  : M (list tweet_dict) :=
  try_except (load_mock_tweets username num_tweets)
             (λ e, mret []).

(** The [try] block of [scrape_user_tweets]. *)
Definition load_live_tweets (c : client) (username : string)
    (num_tweets : Z) : M (list tweet_dict) :=
  user ← extern (EvGetUser username) (λ tr, get_user c tr username);
  match user with
  | None =>
      raise (Exn ValueError ("User @" +:+ username +:+ " not found"))
  | Some u =>
      let max_results := Z.min num_tweets 100 in
      tweets ← extern (EvGetUsersTweets (user_id u) max_results)
                      (λ tr, get_users_tweets c tr (user_id u) max_results);
      match tweets with
      | None | Some [] => mret []
      | Some data =>
          mret ((λ tweet,
                   {| text := JStr (tweet_text tweet);
                      url := status_url username (pretty (tweet_id tweet)) |})
                  <$> slice_to num_tweets data)
      end
  end.

Definition scrape_user_tweets (username : string) (num_tweets : Z)
    (use_mock : bool) : M (list tweet_dict) :=
  match use_mock, twitter_client W with
  | false, Some c =>
      try_except (load_live_tweets c username num_tweets)
                 (λ e,
                    if is_TweepyException e then
                      scrape_user_tweets_mock username num_tweets
                    else
                      scrape_user_tweets_mock username num_tweets)
  | _, _ => scrape_user_tweets_mock username num_tweets
  end.

End Scrape.

End Twitter.
Export Twitter.

(* ===================================================================== *)
(** ** output_parsers.py *)
(* ===================================================================== *)

Module OutputParsers.

(** [class Summary(BaseModel)]: [summary: str], [facts: List[str]]. *)
Record Summary := { summary : string; facts : list string }.

Definition to_dict (self : Summary) : json :=
  JDict {[ "summary" := JStr (summary self);
           "facts" := JList (JStr <$> facts self) ]}.

(** [sep.join(l)] *)
Fixpoint join (sep : string) (l : list string) : string :=
  match l with
  | [] => ""
  | [x] => x
  | x :: rest => x +:+ sep +:+ join sep rest
  end.

(** The newline character. *)
Definition newline : string := String (Ascii.ascii_of_nat 10) "".

(** [Summary.__str__]; the bullet is held in its UTF-8 encoding. *)
Definition Summary_str (self : Summary) : string :=
  let facts_str := join newline ((λ fact, "• " +:+ fact) <$> facts self) in
  "Summary: " +:+ summary self +:+ newline +:+ newline
    +:+ "Interesting Facts:" +:+ newline +:+ facts_str.

(** Validation of a decoded object against the two field types, as
    pydantic does it: a [str] field takes a string, a [List[str]] field
    a list of strings; both fields are required, other keys are
    ignored. *)
Definition validate_str (v : json) : option string :=
  match v with
  | JStr s => Some s
  | _ => None
  end.

Definition validate_list_str (v : json) : option (list string) :=
  match v with
  | JList l => mapM validate_str l
  | _ => None
  end.

Definition model_validate (obj : json) : option Summary :=
  match obj with
  | JDict d =>
      s ← d !! "summary" ≫= validate_str;
      f ← d !! "facts" ≫= validate_list_str;
      Some {| summary := s; facts := f |}
  | _ => None
  end.

(** [summary_parser.parse]: decode the completion, validate it, and raise
    [OutputParserException] when either step fails.  The text of the
    exception is the library's ([Invalid json output: ...] when decoding
    fails, [Failed to parse Summary from completion ... Got: ...] with the
    validation errors otherwise); it is taken from the world. *)
Definition summary_parser (W : world) (completion : string)
  : result Summary :=
  match parse_json_markdown W completion ≫= model_validate with
  | Some res => Ok res
  | None =>
      Raise (Exn OutputParserException (parser_error_text W completion))
  end.

End OutputParsers.
Export OutputParsers.

(* ===================================================================== *)
(** ** ice_breaker.py *)
(* ===================================================================== *)

Module IceBreaker.
Section Pipeline.
Context (W : world).

(** [chain.invoke(...)] for [summary_prompt_template | llm |
    summary_parser].  Building the prompt and the model object makes no
    call of its own; a failure there is a failure of the [llm]
    oracle. *)
Definition chain_invoke (information : gmap string json)
    (twitter_posts : list tweet_dict) : M Summary :=
  completion ← extern (EvChainInvoke information twitter_posts)
                      (λ tr, llm W tr information twitter_posts);
  lift (summary_parser W completion).

Definition ice_break_with (name : string) : M (Summary * option json) :=
  linkedin_username ← extern (EvLinkedinLookup name)
                             (λ tr, linkedin_lookup_agent W tr name);
  linkedin_data ← scrape_linkedin_profile W linkedin_username false 10;
  twitter_username ← extern (EvTwitterLookup name)
                            (λ tr, twitter_lookup_agent W tr name);
  tweets ← scrape_user_tweets W twitter_username 5 false;
  res ← chain_invoke linkedin_data tweets;
  mret (res, linkedin_data !! "PhotoUrl").

End Pipeline.
End IceBreaker.
Export IceBreaker.

(* ===================================================================== *)
(** ** app.py *)
(* ===================================================================== *)

Module App.

(** [request.form.get(key)]: the first value sent for [key]. *)
Fixpoint form_get (form : list (string * string)) (key : string)
  : option string :=
  match form with
  | [] => None
  | (k, v) :: rest => if bool_decide (k = key) then Some v
                      else form_get rest key
  end.

(** [x or ""] where [x] is the result of [dict.get]. *)
Definition or_empty (x : option json) : json :=
  match x with
  | Some v => if py_truthy v then v else JStr ""
  | None => JStr ""
  end.

Definition name_required : json :=
  JDict {[ "error" := JStr "Name parameter is required" ]}.

Definition failure (debug : bool) (e : exn) : json :=
  JDict {[ "error" :=
             JStr "Failed to generate ice breaker content. Please try again.";
           "details" := if debug then JStr (exn_str e) else JNull ]}.

Section Routes.
Context (W : world).

(** [POST /process]: the JSON body and the status code. *)
Definition process (form : list (string * string)) : M (json * Z) :=
  try_except
    (let name := form_get form "name" in
     if negb (str_truthy name) then
       mret (name_required, 400)
     else
       r ← ice_break_with W (default "" name);
       let '(summary_and_facts, profile_pic_url) := r in
       mret (JDict {[ "summary_and_facts" := to_dict summary_and_facts;
                      "photoUrl" := or_empty profile_pic_url ]},
             200))
    (λ e, mret (failure (app_debug W) e, 500)).

End Routes.
End App.
Export App.

(* ===================================================================== *)
(** ** Concrete data and services used in the examples *)
(* ===================================================================== *)

Module Examples.

(** The stubbed profile record of the specification. *)
Definition jane_doe : gmap string json :=
  {[ "fullName" := JStr "Jane Doe";
     "headline" := JStr "Engineer";
     "certifications" := JList [JStr "X"];
     "summary" := JStr "" ]}.

Definition jane_doe_cleaned : gmap string json :=
  {[ "fullName" := JStr "Jane Doe"; "headline" := JStr "Engineer" ]}.

(** A profile document with its [person] envelope. *)
Definition profile_fixture : json := JDict {[ "person" := JDict jane_doe ]}.

Definition raw_tweet (id : json) (body : string) : json :=
  JDict {[ "id" := id; "text" := JStr body ]}.

(** A posts document with four records. *)
Definition tweets_fixture : json :=
  JList [ raw_tweet (JInt 101) "Shipping a new course";
          raw_tweet (JStr "102") "Agents are loops";
          raw_tweet (JInt 103) "Reading about parsers";
          raw_tweet (JInt 104) "Weekend hike" ].

(** A posts document whose second record has an empty text. *)
Definition tweets_fixture_blank : json :=
  JList [ raw_tweet (JInt 101) "Shipping a new course";
          raw_tweet (JInt 102) "";
          raw_tweet (JInt 103) "Reading about parsers" ].

Definition ok_response (body : json) : result response :=
  Ok {| raise_for_status := None; response_json := Ok body |}.

Definition unreachable : exn := Exn ConnectionError "connection refused".

(** Completions are named here; the decoder of the example worlds gives
    each name the object it stands for. *)
Definition decode (completion : string) : option json :=
  if bool_decide (completion = "valid") then
    Some (JDict {[ "summary" := JStr "Jane Doe is an engineer.";
                   "facts" := JList [JStr "Teaches a course";
                                     JStr "Likes hiking"] ]})
  else if bool_decide (completion = "no facts") then
    Some (JDict {[ "summary" := JStr "Jane Doe is an engineer." ]})
  else if bool_decide (completion = "blank summary") then
    Some (JDict {[ "summary" := JStr ""; "facts" := JList [] ]})
  else None.

(** The text of the parser's exception in the example worlds. *)
Definition error_text (completion : string) : string :=
  match decode completion with
  | None => "Invalid json output: " +:+ completion
  | Some _ =>
      "Failed to parse Summary from completion " +:+ completion
        +:+ ". Got: 1 validation error for Summary"
  end.

(** A world in which the two fixture documents are served, the
    enrichment service answers [live], the lookup agents answer with
    fixed identifiers and the model answers [completion]. *)
Definition example_world (key : option string) (live : result response)
    (tweets : result response) (cl : option client) (completion : string)
    (debug : bool) : world :=
  {| environ := λ k, if bool_decide (k = "SCRAPIN_API_KEY") then key
                     else None;
     requests_get := λ _ target _ _,
       if bool_decide (target = api_endpoint) then live
       else if bool_decide (target = mock_data_url) then
         ok_response profile_fixture
       else if bool_decide (target = EDEN_TWITTER_GIST) then tweets
       else Raise unreachable;
     twitter_client := cl;
     linkedin_lookup_agent := λ _ _,
       Ok "https://www.linkedin.com/in/jane-doe/";
     twitter_lookup_agent := λ _ _, Ok "janedoe";
     llm := λ _ _ _, Ok completion;
     parse_json_markdown := decode;
     parser_error_text := error_text;
     py_repr := λ _, "";
     app_debug := debug |}.

(** No credentials at all: every fetch takes its fixture path. *)
Definition offline_world (completion : string) (debug : bool) : world :=
  example_world None (Raise unreachable) (ok_response tweets_fixture) None
                completion debug.

(** A Twitter client that knows no user. *)
Definition empty_client : client :=
  {| get_user := λ _ _, Ok None;
     get_users_tweets := λ _ _ _, Ok None |}.

(** A Twitter client with one user and the given timeline. *)
Definition client_with (timeline : list tw_tweet) : client :=
  {| get_user := λ _ _, Ok (Some {| user_id := 7 |});
     get_users_tweets := λ _ _ _, Ok (Some timeline) |}.

(** The enrichment service answers with a body that is not JSON. *)
Definition not_json_response : result response :=
  Ok {| raise_for_status := None;
        response_json :=
          Raise (Exn RequestsJSONDecodeError
                     "Expecting value: line 1 column 1 (char 0)") |}.

Definition jane_doe_url : string := "https://www.linkedin.com/in/jane-doe/".

Definition live_request : event :=
  EvRequestsGet api_endpoint
                [("apikey", "secret"); ("linkedInUrl", jane_doe_url)] 10.

Definition fixture_request : event := EvRequestsGet mock_data_url [] 10.

(** A credential is configured and the enrichment service is down. *)
Definition service_down_world : world :=
  example_world (Some "secret") (Raise unreachable)
                (ok_response tweets_fixture) None "valid" false.

(** A credential is configured and the service answers 200 with a body
    that is not JSON. *)
Definition not_json_world : world :=
  example_world (Some "secret") not_json_response
                (ok_response tweets_fixture) None "valid" false.

(** A credential is configured and the service answers with an object
    that has no [person] entry. *)
Definition no_person_world : world :=
  example_world (Some "secret")
                (ok_response (JDict {[ "success" := JBool false ]}))
                (ok_response tweets_fixture) None "valid" false.

(** The Twitter client is configured but knows no user. *)
Definition unknown_user_world : world :=
  example_world None (Raise unreachable) (ok_response tweets_fixture)
                (Some empty_client) "valid" false.

(** The posts fixture has a record with an empty text. *)
Definition blank_tweet_world : world :=
  example_world None (Raise unreachable) (ok_response tweets_fixture_blank)
                None "valid" false.


Definition tweets_request : event := EvRequestsGet EDEN_TWITTER_GIST [] 10.

Definition jane_form : list (string * string) := [("name", "Jane Doe")].

(** The calls of a run of the pipeline in an offline world. *)
Definition offline_trace : trace :=
  [ EvLinkedinLookup "Jane Doe"; fixture_request;
    EvTwitterLookup "Jane Doe"; tweets_request ].

Definition offline_tweets : list tweet_dict :=
  [ {| text := JStr "Shipping a new course";
       url := "https://twitter.com/janedoe/status/101" |};
    {| text := JStr "Agents are loops";
       url := "https://twitter.com/janedoe/status/102" |};
    {| text := JStr "Reading about parsers";
       url := "https://twitter.com/janedoe/status/103" |};
    {| text := JStr "Weekend hike";
       url := "https://twitter.com/janedoe/status/104" |} ].

(** No credential, and the profile fixture cannot be fetched at the first
    request but can be afterwards. *)
Definition flaky_fixture_world : world :=
  {| environ := λ _, None;
     requests_get := λ tr target _ _,
       if bool_decide (target = mock_data_url) then
         match tr with
         | [] => Raise unreachable
         | _ => ok_response profile_fixture
         end
       else Raise unreachable;
     twitter_client := None;
     linkedin_lookup_agent := λ _ _, Ok jane_doe_url;
     twitter_lookup_agent := λ _ _, Ok "janedoe";
     llm := λ _ _ _, Ok "valid";
     parse_json_markdown := decode;
     parser_error_text := error_text;
     py_repr := λ _, "";
     app_debug := false |}.

(** A credential is configured and the service answers with a [person]
    entry that is [null]. *)
Definition null_person_world : world :=
  example_world (Some "secret")
                (ok_response (JDict {[ "person" := JNull ]}))
                (ok_response tweets_fixture) None "valid" false.

(** A posts document whose second record has no [text]. *)
Definition tweets_fixture_broken : json :=
  JList [ raw_tweet (JInt 101) "Shipping a new course";
          JDict {[ "id" := JInt 102 ]};
          raw_tweet (JInt 103) "Reading about parsers" ].

Definition broken_tweet_world : world :=
  example_world None (Raise unreachable) (ok_response tweets_fixture_broken)
                None "valid" false.

(** A Twitter client whose every call fails. *)
Definition failing_client : client :=
  {| get_user := λ _ _, Raise (Exn TweepyException "429 Too Many Requests");
     get_users_tweets := λ _ _ _,
       Raise (Exn TweepyException "429 Too Many Requests") |}.

(** Twitter is down altogether: the client fails and the posts fixture
    cannot be fetched. *)
Definition twitter_down_world : world :=
  example_world None (Raise unreachable) (Raise unreachable)
                (Some failing_client) "valid" false.

Definition timeline : list tw_tweet :=
  [ {| tweet_id := 9; tweet_text := "a" |};
    {| tweet_id := 8; tweet_text := "b" |};
    {| tweet_id := 7; tweet_text := "c" |};
    {| tweet_id := 6; tweet_text := "d" |} ].

(** The Twitter client is configured and the user has four posts. *)
Definition timeline_world : world :=
  example_world None (Raise unreachable) (Raise unreachable)
                (Some (client_with timeline)) "valid" false.

(** The Twitter client is configured and the user has no post. *)
Definition silent_user_world : world :=
  example_world None (Raise unreachable) (ok_response tweets_fixture)
                (Some (client_with [])) "valid" false.

(** The lookup of the profile address fails. *)
Definition lookup_down_world : world :=
  {| environ := λ _, None;
     requests_get := λ _ _ _ _, Raise unreachable;
     twitter_client := None;
     linkedin_lookup_agent := λ _ _, Raise (Exn OtherException "rate limit");
     twitter_lookup_agent := λ _ _, Ok "janedoe";
     llm := λ _ _ _, Ok "valid";
     parse_json_markdown := decode;
     parser_error_text := error_text;
     py_repr := λ _, "";
     app_debug := false |}.

(** The lookup of the handle fails. *)
Definition handle_lookup_down_world : world :=
  {| environ := λ _, None;
     requests_get := λ _ target _ _,
       if bool_decide (target = mock_data_url) then ok_response profile_fixture
       else Raise unreachable;
     twitter_client := None;
     linkedin_lookup_agent := λ _ _, Ok jane_doe_url;
     twitter_lookup_agent := λ _ _, Raise (Exn OtherException "rate limit");
     llm := λ _ _ _, Ok "valid";
     parse_json_markdown := decode;
     parser_error_text := error_text;
     py_repr := λ _, "";
     app_debug := false |}.


(** A credential is configured and the service answers with the body
    [null]. *)
Definition null_body_world : world :=
  example_world (Some "secret") (ok_response JNull)
                (ok_response tweets_fixture) None "valid" false.

End Examples.

(* ===================================================================== *)
(** ** Vocabulary of the statements *)
(* ===================================================================== *)

(** The request [scrape_linkedin_profile] sends first: the fixture one in
    mock mode or without a credential, the live one otherwise. *)
Definition first_request (W : world) (linkedin_profile_url : string)
    (mock : bool) : string * list (string * string) :=
  if mock || negb (str_truthy (environ W "SCRAPIN_API_KEY")) then
    (mock_data_url, [])
  else
    (api_endpoint,
     [("apikey", default "" (environ W "SCRAPIN_API_KEY"));
      ("linkedInUrl", linkedin_profile_url)]).

(** A record of the posts fixture: an object with a [text] and an [id]. *)
Definition raw_post (r : json) : Prop :=
  ∃ d t i, r = JDict d ∧ d !! "text" = Some t ∧ d !! "id" = Some i.

(** [p] is the post made from the fixture record [r] for [username]: it
    carries the text of [r], and its address is the status address built
    from [username] and the text of the id of [r]. *)
Definition post_of (W : world) (username : string) (r : json)
    (p : tweet_dict) : Prop :=
  ∃ d t i,
    r = JDict d ∧ d !! "text" = Some t ∧ d !! "id" = Some i
    ∧ text p = t
    ∧ url p = status_url username (py_str (py_repr W) i)
    ∧ contains username (url p)
    ∧ contains (py_str (py_repr W) i) (url p).

(** The posts built on the live path. *)
Definition live_posts (username : string) (data : list tw_tweet)
  : list tweet_dict :=
  (λ tweet, {| text := JStr (tweet_text tweet);
               url := status_url username (pretty (tweet_id tweet)) |})
    <$> data.

(** The calls made by the two fetchers. *)
Definition fetch_event (ev : event) : Prop :=
  match ev with
  | EvRequestsGet _ _ _ | EvGetUser _ | EvGetUsersTweets _ _ => True
  | _ => False
  end.

(** A computation that adds nothing but calls of the fetchers to the
    record. *)
Definition only_fetches {A} (m : M A) : Prop :=
  ∀ tr, ∃ rest, snd (m tr) = tr ++ rest ∧ Forall fetch_event rest.

(** A mapping without a [certifications] entry and without a value that is
    the empty list, the empty string or [None]. *)
Definition cleaned (m : gmap string json) : Prop :=
  m !! "certifications" = None
  ∧ ∀ k v, m !! k = Some v → v ≠ JList [] ∧ v ≠ JStr "" ∧ v ≠ JNull.

(** A computation only ever adds to the record of calls. *)
Definition extends {A} (m : M A) : Prop :=
  ∀ tr, ∃ rest, snd (m tr) = tr ++ rest.

(** Unfolding of the effect combinators. *)
Ltac run :=
  unfold mbind, mret, M_bind, M_ret, result_bind, result_ret,
         extern, lift, raise, try_except;
  simpl.

(* ===================================================================== *)
(** ** Properties *)
(* ===================================================================== *)

(** *** Python operators *)

Lemma py_in_empty_values (v : json) :
  py_in v empty_values = true ↔ v = JList [] ∨ v = JStr "" ∨ v = JNull.
Proof.
  unfold py_in, empty_values; simpl.
  destruct v as [ | b | n | q | s | l | d ]; simpl;
    try (split; [ discriminate | intros [H|[H|H]]; discriminate H ]).
  - split; auto.
  - rewrite !orb_false_r. split.
    + intros H. apply bool_decide_eq_true in H. subst. auto.
    + intros [H|[H|H]]; try discriminate H. by inversion H.
  - destruct l; simpl.
    + split; auto.
    + split; [ discriminate | intros [H|[H|H]]; discriminate H ].
Qed.

Lemma str_in_excluded_fields (k : string) :
  str_in k excluded_fields = true ↔ k = "certifications".
Proof.
  unfold str_in, excluded_fields; simpl. rewrite orb_false_r.
  apply bool_decide_eq_true.
Qed.

(** The condition of the comprehension, spelled out. *)
Lemma clean_condition (k : string) (v : json) :
  negb (py_in v empty_values) && negb (str_in k excluded_fields) = true
  ↔ v ≠ JList [] ∧ v ≠ JStr "" ∧ v ≠ JNull ∧ k ≠ "certifications".
Proof.
  rewrite andb_true_iff, !negb_true_iff.
  rewrite <- !not_true_iff_false, py_in_empty_values, str_in_excluded_fields.
  tauto.
Qed.

(** *** Profile cleaning *)

(** C2. [clean_profile_data] keeps an entry exactly when its value is none
    of the empty list, the empty string and [None] and its key is not
    [certifications], and it keeps the value unchanged; on the stubbed
    record with [fullName], [headline], [certifications] and an empty
    [summary] it yields exactly the [fullName] and [headline] entries. *)
Theorem clean_profile_data_spec :
  (∀ (data : gmap string json) (k : string) (v : json),
     clean_profile_data data !! k = Some v
     ↔ data !! k = Some v
       ∧ v ≠ JList [] ∧ v ≠ JStr "" ∧ v ≠ JNull ∧ k ≠ "certifications")
  ∧ clean_profile_data Examples.jane_doe = Examples.jane_doe_cleaned.
Proof.
  split.
  - intros data k v. unfold clean_profile_data.
    rewrite map_lookup_filter_Some. simpl.
    rewrite <- clean_condition. unfold Is_true.
    destruct (negb _ && negb _); intuition congruence.
  - by vm_compute.
Qed.

(** C6. Cleaning a cleaned mapping changes nothing. *)
Theorem clean_profile_data_idempotent (data : gmap string json) :
  clean_profile_data (clean_profile_data data) = clean_profile_data data.
Proof.
  unfold clean_profile_data. rewrite map_filter_filter.
  apply map_filter_ext. intros k v _. tauto.
Qed.

(** *** The professional-network fetcher *)

(** One level of [scrape_linkedin_profile_rec]. *)
Lemma scrape_linkedin_profile_unfold W depth linkedin_profile_url mock timeout :
  scrape_linkedin_profile_rec W (S depth) linkedin_profile_url mock timeout
  = let again :=
      scrape_linkedin_profile_rec W depth linkedin_profile_url true timeout in
    try_except
      (if mock then
         resp ← extern (EvRequestsGet mock_data_url [] timeout)
                       (λ tr, requests_get W tr mock_data_url [] timeout);
         lift (read_profile resp)
       else
         let api_key := environ W "SCRAPIN_API_KEY" in
         if negb (str_truthy api_key) then again
         else
           let params := [("apikey", default "" api_key);
                          ("linkedInUrl", linkedin_profile_url)] in
           resp ← extern (EvRequestsGet api_endpoint params timeout)
                         (λ tr, requests_get W tr api_endpoint params timeout);
           lift (read_profile resp))
      (λ e, if is_RequestException e then
              if negb mock then again else raise e
            else raise e).
Proof. reflexivity. Qed.

(** The fixture path is one request; nothing is caught on it. *)
Lemma scrape_linkedin_profile_mock W depth linkedin_profile_url timeout tr :
  scrape_linkedin_profile_rec W (S depth) linkedin_profile_url true timeout tr
  = (requests_get W tr mock_data_url [] timeout ≫= read_profile,
     tr ++ [EvRequestsGet mock_data_url [] timeout]).
Proof.
  rewrite scrape_linkedin_profile_unfold. run.
  destruct (requests_get W tr mock_data_url [] timeout) as [resp|e]; simpl.
  - destruct (read_profile resp) as [data|e]; [ done | ].
    by destruct (is_RequestException e).
  - by destruct (is_RequestException e).
Qed.

(** The path taken with [mock=False], for any bound of at least two. *)
Lemma scrape_linkedin_profile_not_mock W depth linkedin_profile_url timeout tr :
  scrape_linkedin_profile_rec W (S (S depth)) linkedin_profile_url false
                              timeout tr
  = let fixture tr0 :=
      (requests_get W tr0 mock_data_url [] timeout ≫= read_profile,
       tr0 ++ [EvRequestsGet mock_data_url [] timeout]) in
    let absorb (r : result (gmap string json) * trace) :=
      match r with
      | (Ok data, tr') => (Ok data, tr')
      | (Raise e, tr') =>
          if is_RequestException e then fixture tr' else (Raise e, tr')
      end in
    let api_key := environ W "SCRAPIN_API_KEY" in
    if negb (str_truthy api_key) then absorb (fixture tr)
    else
      let params := [("apikey", default "" api_key);
                     ("linkedInUrl", linkedin_profile_url)] in
      absorb (requests_get W tr api_endpoint params timeout ≫= read_profile,
              tr ++ [EvRequestsGet api_endpoint params timeout]).
Proof.
  rewrite scrape_linkedin_profile_unfold. cbv zeta.
  pose proof (scrape_linkedin_profile_mock W depth linkedin_profile_url
                                           timeout) as Hagain.
  set (again := scrape_linkedin_profile_rec W (S depth) _ true _) in *.
  unfold try_except.
  destruct (negb (str_truthy (environ W "SCRAPIN_API_KEY"))).
  - rewrite Hagain.
    destruct (_ ≫= read_profile) as [data|e]; [ done | ].
    destruct (is_RequestException e); [ | done ].
    apply Hagain.
  - run. match goal with |- context [requests_get W tr ?u ?p ?t] =>
      destruct (requests_get W tr u p t) as [resp|e] end; simpl.
    + destruct (read_profile resp) as [data|e]; [ done | ].
      destruct (is_RequestException e); [ | done ].
      apply Hagain.
    + destruct (is_RequestException e); [ | done ].
      apply Hagain.
Qed.

(** Calls never nest deeper than two levels: a larger bound changes
    nothing, so the [RecursionError] of the bound is never raised. *)
Lemma scrape_linkedin_profile_depth W depth linkedin_profile_url mock timeout tr :
  (2 ≤ depth)%nat →
  scrape_linkedin_profile_rec W depth linkedin_profile_url mock timeout tr
  = scrape_linkedin_profile W linkedin_profile_url mock timeout tr.
Proof.
  intros Hd. destruct depth as [|[|depth]]; [ lia | lia | ].
  unfold scrape_linkedin_profile. destruct mock.
  - by rewrite !scrape_linkedin_profile_mock.
  - by rewrite !scrape_linkedin_profile_not_mock.
Qed.

(** C3, as the code has it.  With a credential and [mock=False], the live
    attempt (request, status check, JSON decoding, extraction and cleaning)
    decides: its result is returned; an exception that is a
    [RequestException] is absorbed and the fixture path is taken instead;
    any other exception propagates without a further request.  The fixture
    path is a single request of the fixture document whose failure is not
    caught again. *)
Theorem live_failure_fallback W linkedin_profile_url timeout tr key :
  environ W "SCRAPIN_API_KEY" = Some key → key ≠ "" →
  let params := [("apikey", key); ("linkedInUrl", linkedin_profile_url)] in
  let tr1 := tr ++ [EvRequestsGet api_endpoint params timeout] in
  scrape_linkedin_profile W linkedin_profile_url false timeout tr
  = match requests_get W tr api_endpoint params timeout ≫= read_profile with
    | Ok data => (Ok data, tr1)
    | Raise e =>
        if is_RequestException e then
          (requests_get W tr1 mock_data_url [] timeout ≫= read_profile,
           tr1 ++ [EvRequestsGet mock_data_url [] timeout])
        else (Raise e, tr1)
    end.
Proof.
  intros Hkey Hne params tr1. subst params tr1.
  unfold scrape_linkedin_profile.
  rewrite scrape_linkedin_profile_not_mock. cbv zeta. rewrite Hkey. simpl.
  by rewrite bool_decide_eq_false_2.
Qed.

Lemma live_failure_fallback_witness :
  environ Examples.service_down_world "SCRAPIN_API_KEY" = Some "secret"
  ∧ "secret" ≠ ""
  ∧ scrape_linkedin_profile Examples.service_down_world Examples.jane_doe_url
                            false 10 []
    = (Ok Examples.jane_doe_cleaned,
       [Examples.live_request; Examples.fixture_request]).
Proof.
  split; [ reflexivity | split; [ discriminate | ] ].
  rewrite (live_failure_fallback Examples.service_down_world
             Examples.jane_doe_url 10 [] "secret");
    [ vm_compute; reflexivity | reflexivity | discriminate ].
Defined.

(** C3 as stated fails: the service answers 200, [response.json()] raises
    the decode error of requests, and the caller receives the fixture
    profile instead of that error. *)
Lemma malformed_json_is_absorbed :
  ∃ resp e,
    requests_get Examples.not_json_world [] api_endpoint
                 [("apikey", "secret"); ("linkedInUrl", Examples.jane_doe_url)]
                 10 = Ok resp
    ∧ raise_for_status resp = None
    ∧ response_json resp = Raise e
    ∧ scrape_linkedin_profile Examples.not_json_world Examples.jane_doe_url
                              false 10 []
      = (Ok Examples.jane_doe_cleaned,
         [Examples.live_request; Examples.fixture_request]).
Proof.
  eexists _, _. split; [ reflexivity | ].
  split; [ reflexivity | ]. split; [ reflexivity | ].
  vm_compute. reflexivity.
Qed.

(** An exception that is not a [RequestException] does propagate: a body
    that decodes to a list has no [get]. *)
Example unexpected_schema_propagates :
  scrape_linkedin_profile
    (Examples.example_world (Some "secret") (Examples.ok_response (JList []))
       (Examples.ok_response Examples.tweets_fixture) None "valid" false)
    Examples.jane_doe_url false 10 []
  = (Raise (Exn AttributeError "'list' object has no attribute 'get'"),
     [Examples.live_request]).
Proof. vm_compute. reflexivity. Qed.

(** C10 as stated fails: the body [null] parses as JSON and has no
    [person] key, yet the call raises, because [null] has no [get]. *)
Lemma null_body_raises :
  requests_get Examples.null_body_world [] api_endpoint
               [("apikey", "secret"); ("linkedInUrl", Examples.jane_doe_url)]
               10
  = Ok {| raise_for_status := None; response_json := Ok JNull |}
  ∧ scrape_linkedin_profile Examples.null_body_world Examples.jane_doe_url
                            false 10 []
    = (Raise (Exn AttributeError "'NoneType' object has no attribute 'get'"),
       [Examples.live_request]).
Proof. split; [ reflexivity | vm_compute; reflexivity ]. Qed.

(** C10, as the code has it.  When the response that is read (the fixture document in mock mode
    or without a credential, the enrichment response otherwise) passes the
    status check and decodes to a JSON object without a [person] entry,
    the empty mapping stands in for the envelope and the caller receives
    the empty mapping; nothing is raised and no other request is made. *)
Theorem missing_person_envelope W linkedin_profile_url mock timeout tr resp d :
  requests_get W tr (first_request W linkedin_profile_url mock).1
               (first_request W linkedin_profile_url mock).2 timeout
  = Ok resp →
  raise_for_status resp = None →
  response_json resp = Ok (JDict d) →
  d !! "person" = None →
  scrape_linkedin_profile W linkedin_profile_url mock timeout tr
  = (Ok ∅,
     tr ++ [EvRequestsGet (first_request W linkedin_profile_url mock).1
                          (first_request W linkedin_profile_url mock).2
                          timeout]).
Proof.
  intros Hget Hstatus Hjson Hperson.
  assert (Hread : read_profile resp = Ok ∅).
  { unfold read_profile, check_status. rewrite Hstatus, Hjson. simpl.
    rewrite Hperson. simpl. unfold clean_profile_data.
    by rewrite map_filter_empty. }
  unfold scrape_linkedin_profile. destruct mock.
  - rewrite scrape_linkedin_profile_mock.
    unfold first_request in *; simpl in *.
    rewrite Hget. simpl. by rewrite Hread.
  - rewrite scrape_linkedin_profile_not_mock. cbv zeta.
    unfold first_request in *; simpl in *.
    destruct (negb (str_truthy (environ W "SCRAPIN_API_KEY"))); simpl in *.
    + rewrite Hget. simpl. by rewrite Hread.
    + rewrite Hget. simpl. by rewrite Hread.
Qed.

Lemma missing_person_envelope_witness :
  scrape_linkedin_profile Examples.no_person_world Examples.jane_doe_url
                          false 10 []
  = (Ok ∅, [Examples.live_request]).
Proof.
  apply (missing_person_envelope Examples.no_person_world
           Examples.jane_doe_url false 10 []
           {| raise_for_status := None;
              response_json := Ok (JDict {[ "success" := JBool false ]}) |}
           {[ "success" := JBool false ]});
    reflexivity.
Defined.

(** *** The microblog fetcher *)

Lemma string_app_assoc (s1 s2 s3 : string) :
  (s1 +:+ s2) +:+ s3 = s1 +:+ (s2 +:+ s3).
Proof.
  induction s1 as [|a s1 IH]; [ done | ].
  change (String a ((s1 +:+ s2) +:+ s3) = String a (s1 +:+ (s2 +:+ s3))).
  by rewrite IH.
Qed.

Lemma string_app_nil_r (s : string) : s +:+ "" = s.
Proof.
  induction s as [|a s IH]; [ done | ].
  change (String a (s +:+ "") = String a s). by rewrite IH.
Qed.

Lemma status_url_contains_username (username id : string) :
  contains username (status_url username id).
Proof. by exists "https://twitter.com/", ("/status/" +:+ id). Qed.

Lemma status_url_contains_id (username id : string) :
  contains id (status_url username id).
Proof.
  exists ("https://twitter.com/" +:+ username +:+ "/status/"), "".
  unfold status_url. by rewrite string_app_nil_r, !string_app_assoc.
Qed.

(** The fixture path is one request, and it returns whatever happens. *)
Lemma scrape_user_tweets_mock_eq W username num_tweets tr :
  scrape_user_tweets_mock W username num_tweets tr
  = (Ok match requests_get W tr EDEN_TWITTER_GIST [] 10
              ≫= read_mock_tweets W username num_tweets with
        | Ok tweet_list => tweet_list
        | Raise _ => []
        end,
     tr ++ [EvRequestsGet EDEN_TWITTER_GIST [] 10]).
Proof.
  unfold scrape_user_tweets_mock, load_mock_tweets. run.
  destruct (requests_get W tr EDEN_TWITTER_GIST [] 10) as [resp|e]; simpl;
    [ | done ].
  by destruct (read_mock_tweets W username num_tweets resp).
Qed.

Lemma scrape_user_tweets_returns W username num_tweets use_mock tr :
  ∃ tweet_list, fst (scrape_user_tweets W username num_tweets use_mock tr)
                = Ok tweet_list.
Proof.
  unfold scrape_user_tweets.
  destruct use_mock, (twitter_client W) as [c|];
    try (rewrite scrape_user_tweets_mock_eq; by eexists).
  unfold try_except.
  destruct (load_live_tweets c username num_tweets tr) as [[l|e] tr'].
  - by eexists.
  - destruct (is_TweepyException e);
      rewrite scrape_user_tweets_mock_eq; by eexists.
Qed.

(** C4. With a client configured and [use_mock=False], an exception raised
    anywhere in the live attempt, whatever its class, is not propagated:
    the call returns what [scrape_user_tweets_mock] returns for the same
    handle and count at that point. *)
Theorem live_failure_equals_mock W c username num_tweets tr e tr' :
  twitter_client W = Some c →
  load_live_tweets c username num_tweets tr = (Raise e, tr') →
  scrape_user_tweets W username num_tweets false tr
  = scrape_user_tweets_mock W username num_tweets tr'
  ∧ ∃ tweet_list,
      fst (scrape_user_tweets W username num_tweets false tr) = Ok tweet_list.
Proof.
  intros Hc Hlive. split; [ | apply scrape_user_tweets_returns ].
  unfold scrape_user_tweets. rewrite Hc. unfold try_except. rewrite Hlive.
  by destruct (is_TweepyException e).
Qed.

(** The user-not-found case: [get_user] answers without data, the
    [ValueError] is absorbed and the fixture posts are returned. *)
Lemma live_failure_equals_mock_witness :
  twitter_client Examples.unknown_user_world = Some Examples.empty_client
  ∧ load_live_tweets Examples.empty_client "janedoe" 2 []
    = (Raise (Exn ValueError "User @janedoe not found"),
       [EvGetUser "janedoe"])
  ∧ scrape_user_tweets Examples.unknown_user_world "janedoe" 2 false []
    = scrape_user_tweets_mock Examples.unknown_user_world "janedoe" 2
                              [EvGetUser "janedoe"]
  ∧ fst (scrape_user_tweets Examples.unknown_user_world "janedoe" 2 false [])
    = Ok [ {| text := JStr "Shipping a new course";
              url := "https://twitter.com/janedoe/status/101" |};
           {| text := JStr "Agents are loops";
              url := "https://twitter.com/janedoe/status/102" |} ].
Proof.
  split; [ reflexivity | ]. split; [ reflexivity | ].
  split; [ | vm_compute; reflexivity ].
  apply (live_failure_equals_mock Examples.unknown_user_world
           Examples.empty_client "janedoe" 2 []
           (Exn ValueError "User @janedoe not found") [EvGetUser "janedoe"]);
    reflexivity.
Defined.

(** A fixture document of the wrong shape fails soft as well. *)
Example mock_fixture_not_a_list :
  scrape_user_tweets_mock
    (Examples.example_world None (Raise Examples.unreachable)
       (Examples.ok_response (JDict {[ "tweets" := JList [] ]})) None
       "valid" false)
    "janedoe" 5 []
  = (Ok [], [Examples.tweets_request]).
Proof. vm_compute. reflexivity. Qed.

Lemma format_tweets_posts W username (records : list json) :
  Forall raw_post records →
  ∃ posts, format_tweets W username records = Ok posts
           ∧ Forall2 (post_of W username) records posts.
Proof.
  induction 1 as [|r records (d & t & i & -> & Ht & Hi) _ (posts & IH & Hposts)].
  - exists []. by split.
  - eexists. cbn [format_tweets]. unfold getitem. rewrite Ht, Hi.
    split; [ simpl; rewrite IH; reflexivity | ].
    constructor; [ | done ].
    exists d, t, i. simpl.
    eauto 10 using status_url_contains_username, status_url_contains_id.
Qed.

(** C5, as the code has it.  With [count=3] and a fixture document of at
    least three records that each have a [text] and an [id], the fixture
    path returns exactly three posts, in order; each carries the text of
    its record unchanged, and an address that contains the handle as it was
    passed in and the text of the record's id. *)
Theorem mock_fetch_three W username tr resp records :
  requests_get W tr EDEN_TWITTER_GIST [] 10 = Ok resp →
  raise_for_status resp = None →
  response_json resp = Ok (JList records) →
  (3 ≤ length records)%nat →
  Forall raw_post (take 3 records) →
  ∃ posts,
    fst (scrape_user_tweets W username 3 true tr) = Ok posts
    ∧ fst (scrape_user_tweets_mock W username 3 tr) = Ok posts
    ∧ length posts = 3%nat
    ∧ Forall2 (post_of W username) (take 3 records) posts.
Proof.
  intros Hget Hstatus Hjson Hlen Hrecords.
  destruct (format_tweets_posts W username _ Hrecords) as (posts & Hfmt & Hposts).
  exists posts.
  assert (Hmock : fst (scrape_user_tweets_mock W username 3 tr) = Ok posts).
  { rewrite scrape_user_tweets_mock_eq, Hget. simpl.
    unfold read_mock_tweets, check_status. rewrite Hstatus, Hjson. simpl.
    change (slice_to 3 records) with (take 3 records). by rewrite Hfmt. }
  repeat split; [ | done | | done ].
  - unfold scrape_user_tweets. by destruct (twitter_client W).
  - apply Forall2_length in Hposts. rewrite <- Hposts, length_take. lia.
Qed.

Lemma mock_fetch_three_witness :
  ∃ posts,
    fst (scrape_user_tweets (Examples.offline_world "valid" false)
                            "janedoe" 3 true []) = Ok posts
    ∧ fst (scrape_user_tweets_mock (Examples.offline_world "valid" false)
                                   "janedoe" 3 []) = Ok posts
    ∧ length posts = 3%nat
    ∧ Forall2 (post_of (Examples.offline_world "valid" false) "janedoe")
              [ Examples.raw_tweet (JInt 101) "Shipping a new course";
                Examples.raw_tweet (JStr "102") "Agents are loops";
                Examples.raw_tweet (JInt 103) "Reading about parsers" ]
              posts.
Proof.
  refine (mock_fetch_three (Examples.offline_world "valid" false) "janedoe" []
            {| raise_for_status := None;
               response_json := Ok Examples.tweets_fixture |}
            [ Examples.raw_tweet (JInt 101) "Shipping a new course";
              Examples.raw_tweet (JStr "102") "Agents are loops";
              Examples.raw_tweet (JInt 103) "Reading about parsers";
              Examples.raw_tweet (JInt 104) "Weekend hike" ]
            _ _ _ _ _); [ reflexivity | reflexivity | reflexivity | | ].
  - simpl. lia.
  - simpl. repeat constructor; eexists _, _, _; (split; [ reflexivity | ]);
      split; reflexivity.
Defined.

Example mock_fetch_three_posts :
  fst (scrape_user_tweets (Examples.offline_world "valid" false)
                          "janedoe" 3 true [])
  = Ok [ {| text := JStr "Shipping a new course";
            url := "https://twitter.com/janedoe/status/101" |};
         {| text := JStr "Agents are loops";
            url := "https://twitter.com/janedoe/status/102" |};
         {| text := JStr "Reading about parsers";
            url := "https://twitter.com/janedoe/status/103" |} ].
Proof. vm_compute. reflexivity. Qed.

(** C5 as stated fails: the fixture has three posts, the second of which
    has an empty text; three posts are returned and the second has that
    empty text. *)
Lemma blank_text_is_copied :
  requests_get Examples.blank_tweet_world [] EDEN_TWITTER_GIST [] 10
  = Examples.ok_response
      (JList [ Examples.raw_tweet (JInt 101) "Shipping a new course";
               Examples.raw_tweet (JInt 102) "";
               Examples.raw_tweet (JInt 103) "Reading about parsers" ])
  ∧ fst (scrape_user_tweets Examples.blank_tweet_world "janedoe" 3 true [])
    = Ok [ {| text := JStr "Shipping a new course";
              url := "https://twitter.com/janedoe/status/101" |};
           {| text := JStr "";
              url := "https://twitter.com/janedoe/status/102" |};
           {| text := JStr "Reading about parsers";
              url := "https://twitter.com/janedoe/status/103" |} ].
Proof. split; [ reflexivity | vm_compute; reflexivity ]. Qed.

(** The live path builds its posts the same way, from the handle as it was
    passed in. *)
Example live_fetch_three :
  fst (scrape_user_tweets
         (Examples.example_world None (Raise Examples.unreachable)
            (Raise Examples.unreachable)
            (Some (Examples.client_with
                     [ {| tweet_id := 9; tweet_text := "a" |};
                       {| tweet_id := 8; tweet_text := "b" |};
                       {| tweet_id := 7; tweet_text := "c" |};
                       {| tweet_id := 6; tweet_text := "d" |} ]))
            "valid" false)
         "JaneDoe" 3 false [])
  = Ok [ {| text := JStr "a"; url := "https://twitter.com/JaneDoe/status/9" |};
         {| text := JStr "b"; url := "https://twitter.com/JaneDoe/status/8" |};
         {| text := JStr "c"; url := "https://twitter.com/JaneDoe/status/7" |} ].
Proof. vm_compute. reflexivity. Qed.

(** *** Effects: inversion and the record of calls *)

Lemma bind_Ok {A B} (m : M A) (f : A → M B) tr b tr' :
  (m ≫= f) tr = (Ok b, tr') →
  ∃ a tr1, m tr = (Ok a, tr1) ∧ f a tr1 = (Ok b, tr').
Proof.
  unfold mbind, M_bind. destruct (m tr) as [[a|e] tr1]; [ eauto | done ].
Qed.

Lemma bind_run {A B} (m : M A) (f : A → M B) tr a tr1 :
  m tr = (Ok a, tr1) → (m ≫= f) tr = f a tr1.
Proof. unfold mbind, M_bind. by intros ->. Qed.

Lemma extern_run {A} ev (oracle : trace → result A) tr :
  extern ev oracle tr = (oracle tr, tr ++ [ev]).
Proof. reflexivity. Qed.

Lemma extends_ret {A} (a : A) : extends (mret a).
Proof. intros tr. exists []. by rewrite app_nil_r. Qed.

Lemma extends_raise {A} e : extends (@raise A e).
Proof. intros tr. exists []. by rewrite app_nil_r. Qed.

Lemma extends_lift {A} (r : result A) : extends (lift r).
Proof. intros tr. exists []. by rewrite app_nil_r. Qed.

Lemma extends_extern {A} ev (oracle : trace → result A) :
  extends (extern ev oracle).
Proof. intros tr. by exists [ev]. Qed.

Lemma extends_bind {A B} (m : M A) (f : A → M B) :
  extends m → (∀ a, extends (f a)) → extends (m ≫= f).
Proof.
  intros Hm Hf tr. destruct (Hm tr) as [r1 H1].
  unfold mbind, M_bind. destruct (m tr) as [[a|e] tr1]; simpl in H1; subst.
  - destruct (Hf a (tr ++ r1)) as [r2 H2]. exists (r1 ++ r2).
    by rewrite H2, app_assoc.
  - by exists r1.
Qed.

Lemma extends_try_except {A} (body : M A) (handler : exn → M A) :
  extends body → (∀ e, extends (handler e)) → extends (try_except body handler).
Proof.
  intros Hb Hh tr. destruct (Hb tr) as [r1 H1].
  unfold try_except. destruct (body tr) as [[a|e] tr1]; simpl in H1; subst.
  - by exists r1.
  - destruct (Hh e (tr ++ r1)) as [r2 H2]. exists (r1 ++ r2).
    by rewrite H2, app_assoc.
Qed.

Create HintDb extends.
#[local] Hint Resolve extends_ret extends_raise extends_lift extends_extern
  extends_bind extends_try_except : extends.

Lemma scrape_linkedin_profile_extends W depth linkedin_profile_url mock timeout :
  extends (scrape_linkedin_profile_rec W depth linkedin_profile_url mock
                                       timeout).
Proof.
  revert mock. induction depth as [|depth IH]; intros mock.
  - apply extends_raise.
  - rewrite scrape_linkedin_profile_unfold. cbv zeta.
    apply extends_try_except.
    + destruct mock; [ auto with extends | ].
      destruct (negb _); auto with extends.
    + intros e. destruct (is_RequestException e), (negb mock);
        auto with extends.
Qed.

Lemma scrape_user_tweets_mock_extends W username num_tweets :
  extends (scrape_user_tweets_mock W username num_tweets).
Proof.
  unfold scrape_user_tweets_mock, load_mock_tweets. auto 6 with extends.
Qed.

Lemma scrape_user_tweets_extends W username num_tweets use_mock :
  extends (scrape_user_tweets W username num_tweets use_mock).
Proof.
  pose proof (scrape_user_tweets_mock_extends W username num_tweets) as Hmock.
  unfold scrape_user_tweets.
  destruct use_mock, (twitter_client W) as [c|]; try done.
  apply extends_try_except; [ | intros e; by destruct (is_TweepyException e) ].
  unfold load_live_tweets. apply extends_bind; [ auto with extends | ].
  intros [u|]; [ | auto with extends ].
  apply extends_bind; [ auto with extends | ].
  intros [[|t data]|]; auto with extends.
Qed.

Lemma chain_invoke_extends W information twitter_posts :
  extends (chain_invoke W information twitter_posts).
Proof. unfold chain_invoke. auto with extends. Qed.

(** A run of the pipeline starts with the lookup of the profile address,
    so it always leaves a call on record. *)
Lemma ice_break_with_trace W name tr :
  ∃ rest, snd (ice_break_with W name tr) = tr ++ EvLinkedinLookup name :: rest.
Proof.
  unfold ice_break_with. unfold mbind at 1. unfold M_bind at 1.
  rewrite extern_run.
  destruct (linkedin_lookup_agent W tr name) as [linkedin_username|e].
  - match goal with |- ∃ _, snd (?k (tr ++ _)) = _ =>
      assert (Hk : extends k) end.
    { apply extends_bind; [ apply scrape_linkedin_profile_extends | ].
      intros data. apply extends_bind; [ auto with extends | ].
      intros handle. apply extends_bind; [ apply scrape_user_tweets_extends | ].
      intros tweets. apply extends_bind; [ apply chain_invoke_extends | ].
      auto with extends. }
    destruct (Hk (tr ++ [EvLinkedinLookup name])) as [rest Hrest].
    exists rest. rewrite Hrest. by rewrite <- app_assoc.
  - by exists [].
Qed.

Lemma only_fetches_ret {A} (a : A) : only_fetches (mret a).
Proof. intros tr. exists []. by rewrite app_nil_r. Qed.

Lemma only_fetches_raise {A} e : only_fetches (@raise A e).
Proof. intros tr. exists []. by rewrite app_nil_r. Qed.

Lemma only_fetches_lift {A} (r : result A) : only_fetches (lift r).
Proof. intros tr. exists []. by rewrite app_nil_r. Qed.

Lemma only_fetches_extern {A} ev (oracle : trace → result A) :
  fetch_event ev → only_fetches (extern ev oracle).
Proof. intros Hev tr. exists [ev]. split; [ done | by constructor ]. Qed.

Lemma only_fetches_bind {A B} (m : M A) (f : A → M B) :
  only_fetches m → (∀ a, only_fetches (f a)) → only_fetches (m ≫= f).
Proof.
  intros Hm Hf tr. destruct (Hm tr) as (r1 & H1 & Hr1).
  unfold mbind, M_bind. destruct (m tr) as [[a|e] tr1]; simpl in H1; subst.
  - destruct (Hf a (tr ++ r1)) as (r2 & H2 & Hr2). exists (r1 ++ r2).
    rewrite H2, app_assoc. split; [ done | by apply Forall_app ].
  - by exists r1.
Qed.

Lemma only_fetches_try_except {A} (body : M A) (handler : exn → M A) :
  only_fetches body → (∀ e, only_fetches (handler e)) →
  only_fetches (try_except body handler).
Proof.
  intros Hb Hh tr. destruct (Hb tr) as (r1 & H1 & Hr1).
  unfold try_except. destruct (body tr) as [[a|e] tr1]; simpl in H1; subst.
  - by exists r1.
  - destruct (Hh e (tr ++ r1)) as (r2 & H2 & Hr2). exists (r1 ++ r2).
    rewrite H2, app_assoc. split; [ done | by apply Forall_app ].
Qed.

Create HintDb fetches.
#[local] Hint Resolve only_fetches_ret only_fetches_raise only_fetches_lift
  only_fetches_bind only_fetches_try_except : fetches.
#[local] Hint Extern 1 (only_fetches (extern _ _)) =>
  apply only_fetches_extern; exact I : fetches.

Lemma scrape_linkedin_profile_only_fetches
    W depth linkedin_profile_url mock timeout :
  only_fetches (scrape_linkedin_profile_rec W depth linkedin_profile_url mock
                                            timeout).
Proof.
  revert mock. induction depth as [|depth IH]; intros mock.
  - apply only_fetches_raise.
  - rewrite scrape_linkedin_profile_unfold. cbv zeta.
    apply only_fetches_try_except.
    + destruct mock; [ auto with fetches | ].
      destruct (negb _); auto with fetches.
    + intros e. destruct (is_RequestException e), (negb mock);
        auto with fetches.
Qed.

Lemma scrape_user_tweets_mock_only_fetches W username num_tweets :
  only_fetches (scrape_user_tweets_mock W username num_tweets).
Proof.
  unfold scrape_user_tweets_mock, load_mock_tweets. auto 6 with fetches.
Qed.

Lemma scrape_user_tweets_only_fetches W username num_tweets use_mock :
  only_fetches (scrape_user_tweets W username num_tweets use_mock).
Proof.
  pose proof (scrape_user_tweets_mock_only_fetches W username num_tweets)
    as Hmock.
  unfold scrape_user_tweets.
  destruct use_mock, (twitter_client W) as [c|]; try done.
  apply only_fetches_try_except;
    [ | intros e; by destruct (is_TweepyException e) ].
  unfold load_live_tweets. apply only_fetches_bind; [ auto with fetches | ].
  intros [u|]; [ | auto with fetches ].
  apply only_fetches_bind; [ auto with fetches | ].
  intros [[|t data]|]; auto with fetches.
Qed.

Lemma run_only_fetches {A} (m : M A) tr r tr' :
  only_fetches m → m tr = (r, tr') →
  ∃ rest, tr' = tr ++ rest ∧ Forall fetch_event rest.
Proof.
  intros Hm Hrun. destruct (Hm tr) as (rest & H & Hrest).
  rewrite Hrun in H. eauto.
Qed.

(** *** The output schema *)

Lemma validate_list_str_Some (v : json) (f : list string) :
  validate_list_str v = Some f → v = JList (JStr <$> f).
Proof.
  destruct v as [ | | | | |l| ]; try done. simpl. intros H.
  apply mapM_Some in H. f_equal.
  induction H as [|x s l f Hx _ IH]; [ done | ].
  destruct x; try done. simpl in Hx. injection Hx as ->. by rewrite IH.
Qed.

(** What validation accepts: an object whose [summary] is a string and
    whose [facts] is a list of strings; the result carries exactly these. *)
Lemma model_validate_Some (obj : json) (res : Summary) :
  model_validate obj = Some res
  ↔ ∃ d, obj = JDict d
         ∧ d !! "summary" = Some (JStr (summary res))
         ∧ d !! "facts" = Some (JList (JStr <$> facts res)).
Proof.
  split.
  - destruct obj as [ | | | | | |d]; try done. simpl. intros H.
    apply bind_Some in H as (s & Hs & H).
    apply bind_Some in H as (f & Hf & H). injection H as <-. simpl.
    apply bind_Some in Hs as (vs & Hvs & Hs).
    apply bind_Some in Hf as (vf & Hvf & Hf).
    destruct vs; try done. injection Hs as ->.
    apply validate_list_str_Some in Hf as ->. eauto.
  - intros (d & -> & Hs & Hf). simpl. rewrite Hs, Hf. simpl.
    assert (mapM validate_str (JStr <$> facts res) = Some (facts res)) as ->.
    { apply mapM_Some. clear Hf.
      induction (facts res) as [|x f IH]; simpl; by constructor. }
    by destruct res.
Qed.

Lemma summary_parser_Ok W completion res :
  summary_parser W completion = Ok res
  ↔ ∃ obj, parse_json_markdown W completion = Some obj
           ∧ model_validate obj = Some res.
Proof.
  unfold summary_parser. rewrite <- bind_Some.
  destruct (_ ≫= model_validate); split; intros H; by simplify_eq.
Qed.

(** *** The synthesis pipeline *)

(** C1, as the code has it.  For a non-empty name the pipeline raises or
    returns a result whose two fields were both supplied by the completion
    of the model: the completion decodes to an object whose [summary] is a
    string, the summary returned, and whose [facts] is a list of strings,
    the facts returned.  The string may be empty and so may the list. *)
Theorem synthesis_result_populated W name tr :
  name ≠ "" →
  match fst (ice_break_with W name tr) with
  | Raise _ => True
  | Ok (res, _) =>
      ∃ tr0 information twitter_posts completion d,
        llm W tr0 information twitter_posts = Ok completion
        ∧ parse_json_markdown W completion = Some (JDict d)
        ∧ d !! "summary" = Some (JStr (summary res))
        ∧ d !! "facts" = Some (JList (JStr <$> facts res))
  end.
Proof.
  intros _.
  destruct (ice_break_with W name tr) as [[[res photo]|e] tr'] eqn:Hrun;
    [ | done ].
  simpl. unfold ice_break_with in Hrun.
  apply bind_Ok in Hrun as (linkedin_username & tr1 & _ & Hrun).
  apply bind_Ok in Hrun as (linkedin_data & tr2 & _ & Hrun).
  apply bind_Ok in Hrun as (twitter_username & tr3 & _ & Hrun).
  apply bind_Ok in Hrun as (tweets & tr4 & _ & Hrun).
  apply bind_Ok in Hrun as (res' & tr5 & Hchain & Hret).
  injection Hret as -> _ _.
  unfold chain_invoke in Hchain.
  apply bind_Ok in Hchain as (completion & tr6 & Hllm & Hparse).
  rewrite extern_run in Hllm. injection Hllm as Hllm _.
  unfold lift in Hparse. injection Hparse as Hparse _.
  apply summary_parser_Ok in Hparse as (obj & Hdecode & Hvalid).
  apply model_validate_Some in Hvalid as (d & -> & Hs & Hf).
  eauto 10.
Qed.

Lemma synthesis_result_populated_witness :
  "Jane Doe" ≠ ""
  ∧ ∃ tr0 information twitter_posts completion d,
      llm (Examples.offline_world "valid" false) tr0 information twitter_posts
      = Ok completion
      ∧ parse_json_markdown (Examples.offline_world "valid" false) completion
        = Some (JDict d)
      ∧ d !! "summary" = Some (JStr "Jane Doe is an engineer.")
      ∧ d !! "facts" = Some (JList [JStr "Teaches a course";
                                    JStr "Likes hiking"]).
Proof.
  split; [ discriminate | ].
  exact (synthesis_result_populated (Examples.offline_world "valid" false)
           "Jane Doe" [] ltac:(discriminate)).
Defined.

Example ice_break_with_offline :
  ice_break_with (Examples.offline_world "valid" false) "Jane Doe" []
  = (Ok ({| summary := "Jane Doe is an engineer.";
            facts := ["Teaches a course"; "Likes hiking"] |}, None),
     Examples.offline_trace
       ++ [EvChainInvoke Examples.jane_doe_cleaned Examples.offline_tweets]).
Proof. vm_compute. reflexivity. Qed.

(** C1 as stated fails: the completion has an empty [summary], validation
    accepts it and the pipeline returns it. *)
Lemma empty_summary_is_returned :
  "Jane Doe" ≠ ""
  ∧ fst (ice_break_with (Examples.offline_world "blank summary" false)
                        "Jane Doe" [])
    = Ok ({| summary := ""; facts := [] |}, None).
Proof. split; [ discriminate | vm_compute; reflexivity ]. Qed.

(** A run of the pipeline that returns, taken apart: every stage returned,
    and the calls on record are the two lookups, the calls of the fetchers
    between them, and the call of the model at the end. *)
Lemma ice_break_with_Ok W name tr res photo tr' :
  ice_break_with W name tr = (Ok (res, photo), tr') →
  ∃ linkedin_username data twitter_username posts completion r1 r2,
    linkedin_lookup_agent W tr name = Ok linkedin_username
    ∧ scrape_linkedin_profile W linkedin_username false 10
                              (tr ++ [EvLinkedinLookup name])
      = (Ok data, (tr ++ [EvLinkedinLookup name]) ++ r1)
    ∧ Forall fetch_event r1
    ∧ twitter_lookup_agent W ((tr ++ [EvLinkedinLookup name]) ++ r1) name
      = Ok twitter_username
    ∧ scrape_user_tweets W twitter_username 5 false
        (((tr ++ [EvLinkedinLookup name]) ++ r1) ++ [EvTwitterLookup name])
      = (Ok posts,
         (((tr ++ [EvLinkedinLookup name]) ++ r1) ++ [EvTwitterLookup name])
           ++ r2)
    ∧ Forall fetch_event r2
    ∧ llm W ((((tr ++ [EvLinkedinLookup name]) ++ r1)
                ++ [EvTwitterLookup name]) ++ r2) data posts
      = Ok completion
    ∧ summary_parser W completion = Ok res
    ∧ photo = data !! "PhotoUrl"
    ∧ tr' = tr ++ EvLinkedinLookup name :: r1
               ++ EvTwitterLookup name :: r2 ++ [EvChainInvoke data posts].
Proof.
  intros Hrun. unfold ice_break_with in Hrun.
  apply bind_Ok in Hrun as (linkedin_username & tr1 & Hurl & Hrun).
  rewrite extern_run in Hurl. injection Hurl as Hurl <-.
  apply bind_Ok in Hrun as (data & tr2 & Hprofile & Hrun).
  destruct (run_only_fetches _ _ _ _
              (scrape_linkedin_profile_only_fetches W 2 linkedin_username
                 false 10) Hprofile) as (r1 & -> & Hr1).
  apply bind_Ok in Hrun as (twitter_username & tr3 & Hhandle & Hrun).
  rewrite extern_run in Hhandle. injection Hhandle as Hhandle <-.
  apply bind_Ok in Hrun as (posts & tr4 & Htweets & Hrun).
  destruct (run_only_fetches _ _ _ _
              (scrape_user_tweets_only_fetches W twitter_username 5 false)
              Htweets) as (r2 & -> & Hr2).
  apply bind_Ok in Hrun as (res' & tr5 & Hchain & Hret).
  injection Hret as -> <- <-.
  unfold chain_invoke in Hchain.
  apply bind_Ok in Hchain as (completion & tr6 & Hllm & Hparse).
  rewrite extern_run in Hllm. injection Hllm as Hllm <-.
  unfold lift in Hparse. injection Hparse as Hparse <-.
  exists linkedin_username, data, twitter_username, posts, completion, r1, r2.
  repeat split; try done.
  by rewrite <- !app_assoc.
Qed.

(** *** The HTTP boundary *)

(** Whatever the pipeline raises becomes the generic 500 answer. *)
Lemma process_core_failure W form name tr e tr' :
  form_get form "name" = Some name → name ≠ "" →
  ice_break_with W name tr = (Raise e, tr') →
  process W form tr = (Ok (failure (app_debug W) e, 500), tr').
Proof.
  intros Hname Hne Hrun. unfold process, try_except. rewrite Hname. simpl.
  rewrite bool_decide_eq_false_2 by done. simpl.
  unfold mbind, M_bind. by rewrite Hrun.
Qed.

(** A completion that the parser rejects makes the pipeline raise the
    parser's exception, once the stages before it have returned. *)
Lemma ice_break_with_schema_violation
    W name tr linkedin_username tr1 linkedin_data twitter_username tr2 tweets
    completion :
  linkedin_lookup_agent W tr name = Ok linkedin_username →
  scrape_linkedin_profile W linkedin_username false 10
                          (tr ++ [EvLinkedinLookup name])
  = (Ok linkedin_data, tr1) →
  twitter_lookup_agent W tr1 name = Ok twitter_username →
  scrape_user_tweets W twitter_username 5 false (tr1 ++ [EvTwitterLookup name])
  = (Ok tweets, tr2) →
  llm W tr2 linkedin_data tweets = Ok completion →
  parse_json_markdown W completion ≫= model_validate = None →
  ice_break_with W name tr
  = (Raise (Exn OutputParserException (parser_error_text W completion)),
     tr2 ++ [EvChainInvoke linkedin_data tweets]).
Proof.
  intros Hurl Hprofile Hhandle Htweets Hllm Hparse. unfold ice_break_with.
  erewrite bind_run by (rewrite extern_run, Hurl; reflexivity).
  erewrite bind_run by exact Hprofile.
  erewrite bind_run by (rewrite extern_run, Hhandle; reflexivity).
  erewrite bind_run by exact Htweets.
  unfold chain_invoke, mbind, M_bind. rewrite extern_run, Hllm.
  unfold lift, summary_parser. by rewrite Hparse.
Qed.

(** C7. A form without a [name] field, or with an empty one, is answered
    with status 400 and the body [{"error": "Name parameter is required"}];
    no call is recorded, whereas every run of the pipeline records one: the
    pipeline is not entered. *)
Theorem missing_name_rejected W form tr :
  form_get form "name" = None ∨ form_get form "name" = Some "" →
  process W form tr
  = (Ok (JDict {[ "error" := JStr "Name parameter is required" ]}, 400), tr)
  ∧ ∀ name tr0, ∃ rest,
      snd (ice_break_with W name tr0) = tr0 ++ EvLinkedinLookup name :: rest.
Proof.
  intros Hname. split; [ | apply ice_break_with_trace ].
  unfold process, try_except. by destruct Hname as [-> | ->].
Qed.

Lemma missing_name_rejected_witness :
  (form_get [("surname", "Doe")] "name" = None
   ∨ form_get [("surname", "Doe")] "name" = Some "")
  ∧ process (Examples.offline_world "valid" false) [("surname", "Doe")] []
    = (Ok (JDict {[ "error" := JStr "Name parameter is required" ]}, 400), []).
Proof.
  split; [ by left | ].
  refine (proj1 (missing_name_rejected (Examples.offline_world "valid" false)
                   [("surname", "Doe")] [] _)).
  by left.
Defined.

Example empty_name_rejected :
  process (Examples.offline_world "valid" false) [("name", "")] []
  = (Ok (JDict {[ "error" := JStr "Name parameter is required" ]}, 400), []).
Proof. vm_compute. reflexivity. Qed.

Example process_offline :
  process (Examples.offline_world "valid" false) Examples.jane_form []
  = (Ok (JDict {[ "summary_and_facts" :=
                    JDict {[ "summary" := JStr "Jane Doe is an engineer.";
                             "facts" := JList [JStr "Teaches a course";
                                               JStr "Likes hiking"] ]};
                  "photoUrl" := JStr "" ]}, 200),
     Examples.offline_trace
       ++ [EvChainInvoke Examples.jane_doe_cleaned Examples.offline_tweets]).
Proof. vm_compute. reflexivity. Qed.

(** C8.  For a request that names a person: whatever exception [e] the
    pipeline raises, of any class and at any stage, the boundary answers
    with status 500 and the fixed message, with [str(e)] as [details] in
    debug mode and [null] otherwise; and when the stages before the model
    have returned and the completion does not decode into an object with a
    string [summary] and a list of strings [facts], the pipeline does raise,
    an [OutputParserException], which is answered that way. *)
Theorem schema_violation_is_500 W form name tr :
  form_get form "name" = Some name → name ≠ "" →
  (∀ e tr',
     ice_break_with W name tr = (Raise e, tr') →
     process W form tr
     = (Ok (JDict {[ "error" :=
                       JStr "Failed to generate ice breaker content. Please try again.";
                     "details" :=
                       if app_debug W then JStr (exn_str e) else JNull ]},
            500),
        tr'))
  ∧ (∀ linkedin_username tr1 linkedin_data twitter_username tr2 tweets
       completion,
       linkedin_lookup_agent W tr name = Ok linkedin_username →
       scrape_linkedin_profile W linkedin_username false 10
                               (tr ++ [EvLinkedinLookup name])
       = (Ok linkedin_data, tr1) →
       twitter_lookup_agent W tr1 name = Ok twitter_username →
       scrape_user_tweets W twitter_username 5 false
                          (tr1 ++ [EvTwitterLookup name])
       = (Ok tweets, tr2) →
       llm W tr2 linkedin_data tweets = Ok completion →
       parse_json_markdown W completion ≫= model_validate = None →
       ∃ e,
         exn_class_of e = OutputParserException
         ∧ ice_break_with W name tr
           = (Raise e, tr2 ++ [EvChainInvoke linkedin_data tweets])
         ∧ process W form tr
           = (Ok (JDict {[ "error" :=
                             JStr "Failed to generate ice breaker content. Please try again.";
                           "details" :=
                             if app_debug W then JStr (exn_str e)
                             else JNull ]},
                  500),
              tr2 ++ [EvChainInvoke linkedin_data tweets])).
Proof.
  intros Hname Hne. split.
  - intros e tr' Hrun. by apply (process_core_failure W form name).
  - intros linkedin_username tr1 linkedin_data twitter_username tr2 tweets
      completion Hurl Hprofile Hhandle Htweets Hllm Hparse.
    pose proof (ice_break_with_schema_violation W name tr _ _ _ _ _ _ _
                  Hurl Hprofile Hhandle Htweets Hllm Hparse) as Hrun.
    eexists. split; [ | split; [ exact Hrun | ] ]; [ done | ].
    by apply (process_core_failure W form name).
Qed.

Lemma schema_violation_is_500_witness :
  (∃ e,
     exn_class_of e = OutputParserException
     ∧ ice_break_with (Examples.offline_world "no facts" false) "Jane Doe" []
       = (Raise e,
          Examples.offline_trace
            ++ [EvChainInvoke Examples.jane_doe_cleaned
                              Examples.offline_tweets])
     ∧ process (Examples.offline_world "no facts" false) Examples.jane_form []
       = (Ok (JDict {[ "error" :=
                         JStr "Failed to generate ice breaker content. Please try again.";
                       "details" := JNull ]}, 500),
          Examples.offline_trace
            ++ [EvChainInvoke Examples.jane_doe_cleaned
                              Examples.offline_tweets]))
  ∧ process Examples.lookup_down_world Examples.jane_form []
    = (Ok (JDict {[ "error" :=
                      JStr "Failed to generate ice breaker content. Please try again.";
                    "details" := JNull ]}, 500),
       [EvLinkedinLookup "Jane Doe"]).
Proof.
  split.
  - destruct (schema_violation_is_500 (Examples.offline_world "no facts" false)
                Examples.jane_form "Jane Doe" [] eq_refl ltac:(discriminate))
      as [_ Hschema].
    destruct (Hschema "https://www.linkedin.com/in/jane-doe/"
                [EvLinkedinLookup "Jane Doe"; Examples.fixture_request]
                Examples.jane_doe_cleaned "janedoe" Examples.offline_trace
                Examples.offline_tweets "no facts")
      as (e & Hclass & Hrun & Hprocess);
      [ reflexivity | vm_compute; reflexivity | reflexivity
      | vm_compute; reflexivity | reflexivity | reflexivity | ].
    exists e. split; [ exact Hclass | ]. split; [ exact Hrun | exact Hprocess ].
  - destruct (schema_violation_is_500 Examples.lookup_down_world
                Examples.jane_form "Jane Doe" [] eq_refl ltac:(discriminate))
      as [Hany _].
    apply (Hany (Exn OtherException "rate limit")). reflexivity.
Defined.

(** In debug mode the text of the exception is passed on. *)
Example schema_violation_debug :
  fst (process (Examples.offline_world "no facts" true) Examples.jane_form [])
  = Ok (JDict {[ "error" :=
                   JStr "Failed to generate ice breaker content. Please try again.";
                 "details" :=
                   JStr "Failed to parse Summary from completion no facts. Got: 1 validation error for Summary" ]},
        500).
Proof. vm_compute. reflexivity. Qed.

(** A failure of a lookup agent is answered the same way. *)
Example lookup_failure_is_500 :
  process
    {| environ := λ _, None;
       requests_get := λ _ _ _ _, Raise Examples.unreachable;
       twitter_client := None;
       linkedin_lookup_agent := λ _ _, Raise (Exn OtherException "rate limit");
       twitter_lookup_agent := λ _ _, Ok "janedoe";
       llm := λ _ _ _, Ok "valid";
       parse_json_markdown := Examples.decode;
       parser_error_text := Examples.error_text;
       py_repr := λ _, "";
       app_debug := false |}
    Examples.jane_form []
  = (Ok (JDict {[ "error" :=
                    JStr "Failed to generate ice breaker content. Please try again.";
                  "details" := JNull ]}, 500),
     [EvLinkedinLookup "Jane Doe"]).
Proof. vm_compute. reflexivity. Qed.

(** *** Failing soft *)






(* ===================================================================== *)
(** ** Further properties of the fetchers, the schema and the boundary *)
(* ===================================================================== *)

(** *** third_parties/linkedin.py *)

Lemma clean_profile_data_lookup (data : gmap string json) k v :
  clean_profile_data data !! k = Some v
  ↔ data !! k = Some v
    ∧ v ≠ JList [] ∧ v ≠ JStr "" ∧ v ≠ JNull ∧ k ≠ "certifications".
Proof.
  unfold clean_profile_data. rewrite map_lookup_filter_Some. simpl.
  rewrite <- clean_condition. unfold Is_true.
  destruct (negb _ && negb _); intuition congruence.
Qed.

Lemma clean_profile_data_fixed (data : gmap string json) :
  clean_profile_data (clean_profile_data data) = clean_profile_data data.
Proof.
  apply map_eq. intros k. apply option_eq. intros v.
  rewrite !clean_profile_data_lookup. tauto.
Qed.

Lemma read_profile_Ok resp data :
  read_profile resp = Ok data → ∃ d, data = clean_profile_data d.
Proof.
  unfold read_profile, check_status.
  destruct (raise_for_status resp); [ done | ]. simpl.
  destruct (response_json resp) as [json_data|]; [ | done ]. simpl.
  destruct (dict_get json_data "person" (JDict ∅)) as [person|]; [ | done ].
  simpl. destruct (dict_items person) as [d|]; [ | done ]. simpl.
  intros [= <-]. by exists d.
Qed.

Lemma scrape_linkedin_profile_Ok W linkedin_profile_url mock timeout tr data :
  fst (scrape_linkedin_profile W linkedin_profile_url mock timeout tr) = Ok data →
  ∃ resp, read_profile resp = Ok data.
Proof.
  assert (Hread : ∀ r : result response,
             r ≫= read_profile = Ok data → ∃ resp, read_profile resp = Ok data).
  { intros [resp|e]; [ eauto | done ]. }
  unfold scrape_linkedin_profile. destruct mock.
  - rewrite scrape_linkedin_profile_mock. apply Hread.
  - rewrite scrape_linkedin_profile_not_mock. cbv zeta.
    destruct (negb _).
    + destruct (_ ≫= read_profile) as [data'|e] eqn:H1.
      * simpl. intros [= ->]. by apply Hread in H1.
      * destruct (is_RequestException e); [ apply Hread | done ].
    + destruct (_ ≫= read_profile) as [data'|e] eqn:H1.
      * simpl. intros [= ->]. by apply Hread in H1.
      * destruct (is_RequestException e); [ apply Hread | done ].
Qed.


(** With [mock=True] one request is made, for the fixture document, and
    its outcome is the outcome of the call: the enrichment endpoint is not
    requested, with or without a credential, and no failure is caught. *)
Theorem mock_mode_single_request W linkedin_profile_url timeout tr :
  scrape_linkedin_profile W linkedin_profile_url true timeout tr
  = (requests_get W tr mock_data_url [] timeout ≫= read_profile,
     tr ++ [EvRequestsGet mock_data_url [] timeout])
  ∧ mock_data_url ≠ api_endpoint.
Proof.
  split; [ apply scrape_linkedin_profile_mock | done ].
Qed.

(** Without a credential ([SCRAPIN_API_KEY] unset or empty) the enrichment
    endpoint is never requested: the fixture document is.  That first
    attempt runs inside the [try] block of the outer call, so when it fails
    with a [RequestException] the fixture document is requested a second
    time, and the second outcome is final. *)
Theorem no_credential_uses_fixture W linkedin_profile_url timeout tr :
  str_truthy (environ W "SCRAPIN_API_KEY") = false →
  let attempt tr0 :=
    (requests_get W tr0 mock_data_url [] timeout ≫= read_profile,
     tr0 ++ [EvRequestsGet mock_data_url [] timeout]) in
  scrape_linkedin_profile W linkedin_profile_url false timeout tr
  = match attempt tr with
    | (Ok data, tr1) => (Ok data, tr1)
    | (Raise e, tr1) =>
        if is_RequestException e then attempt tr1 else (Raise e, tr1)
    end.
Proof.
  intros Hkey attempt. unfold scrape_linkedin_profile.
  rewrite scrape_linkedin_profile_not_mock. cbv zeta. by rewrite Hkey.
Qed.

Lemma no_credential_uses_fixture_witness :
  str_truthy (environ Examples.flaky_fixture_world "SCRAPIN_API_KEY") = false
  ∧ scrape_linkedin_profile Examples.flaky_fixture_world Examples.jane_doe_url
                            false 10 []
    = (Ok Examples.jane_doe_cleaned,
       [Examples.fixture_request; Examples.fixture_request]).
Proof.
  split; [ reflexivity | ].
  rewrite (no_credential_uses_fixture Examples.flaky_fixture_world
             Examples.jane_doe_url 10 []); [ | reflexivity ].
  vm_compute. reflexivity.
Defined.

(** Whatever mapping [scrape_linkedin_profile] returns, in either mode, is
    cleaned: it has no [certifications] entry, none of its values is the
    empty list, the empty string or [None], and cleaning it again changes
    nothing. *)
Theorem scraped_profile_is_clean W linkedin_profile_url mock timeout tr data :
  fst (scrape_linkedin_profile W linkedin_profile_url mock timeout tr) = Ok data →
  clean_profile_data data = data
  ∧ data !! "certifications" = None
  ∧ ∀ k v, data !! k = Some v → v ≠ JList [] ∧ v ≠ JStr "" ∧ v ≠ JNull.
Proof.
  intros Hrun. apply scrape_linkedin_profile_Ok in Hrun as [resp Hread].
  apply read_profile_Ok in Hread as [d ->].
  split; [ apply clean_profile_data_fixed | ]. split.
  - destruct (clean_profile_data d !! "certifications") as [v|] eqn:Hv;
      [ | done ].
    apply clean_profile_data_lookup in Hv. tauto.
  - intros k v Hv. apply clean_profile_data_lookup in Hv. tauto.
Qed.

Lemma scraped_profile_is_clean_witness :
  fst (scrape_linkedin_profile Examples.service_down_world
                               Examples.jane_doe_url false 10 [])
  = Ok Examples.jane_doe_cleaned
  ∧ clean_profile_data Examples.jane_doe_cleaned = Examples.jane_doe_cleaned
  ∧ Examples.jane_doe_cleaned !! "certifications" = None
  ∧ ∀ k v, Examples.jane_doe_cleaned !! k = Some v
           → v ≠ JList [] ∧ v ≠ JStr "" ∧ v ≠ JNull.
Proof.
  split; [ vm_compute; reflexivity | ].
  apply (scraped_profile_is_clean Examples.service_down_world
           Examples.jane_doe_url false 10 []).
  vm_compute. reflexivity.
Defined.

(** A [person] entry that is present but is not an object ([null], a list,
    a string, ...) is not replaced by the empty mapping: the call raises
    [AttributeError] for the missing [items], and since that is not a
    [RequestException] there is no fallback and no further request. *)
Theorem person_not_an_object_raises
    W linkedin_profile_url mock timeout tr resp d person :
  requests_get W tr (first_request W linkedin_profile_url mock).1
               (first_request W linkedin_profile_url mock).2 timeout
  = Ok resp →
  raise_for_status resp = None →
  response_json resp = Ok (JDict d) →
  d !! "person" = Some person →
  (∀ p, person ≠ JDict p) →
  scrape_linkedin_profile W linkedin_profile_url mock timeout tr
  = (Raise (Exn AttributeError
                ("'" +:+ type_name person
                     +:+ "' object has no attribute 'items'")),
     tr ++ [EvRequestsGet (first_request W linkedin_profile_url mock).1
                          (first_request W linkedin_profile_url mock).2
                          timeout]).
Proof.
  intros Hget Hstatus Hjson Hperson Hshape.
  assert (Hread : read_profile resp = Raise (no_attribute person "items")).
  { unfold read_profile, check_status. rewrite Hstatus, Hjson. simpl.
    rewrite Hperson. simpl. destruct person; try done. by destruct (Hshape d0). }
  unfold scrape_linkedin_profile. destruct mock.
  - rewrite scrape_linkedin_profile_mock.
    unfold first_request in *; simpl in *.
    rewrite Hget. simpl. by rewrite Hread.
  - rewrite scrape_linkedin_profile_not_mock. cbv zeta.
    unfold first_request in *; simpl in *.
    destruct (negb (str_truthy (environ W "SCRAPIN_API_KEY"))); simpl in *.
    + rewrite Hget. simpl. by rewrite Hread.
    + rewrite Hget. simpl. by rewrite Hread.
Qed.

Lemma person_not_an_object_raises_witness :
  scrape_linkedin_profile Examples.null_person_world Examples.jane_doe_url
                          false 10 []
  = (Raise (Exn AttributeError "'NoneType' object has no attribute 'items'"),
     [Examples.live_request]).
Proof.
  apply (person_not_an_object_raises Examples.null_person_world
           Examples.jane_doe_url false 10 []
           {| raise_for_status := None;
              response_json := Ok (JDict {[ "person" := JNull ]}) |}
           {[ "person" := JNull ]} JNull);
    try reflexivity.
  discriminate.
Defined.

(** Cleaning only removes entries, it removes enough and no more than it
    must: the result is a part of the input, it is [cleaned] (no
    [certifications] entry, no empty value), and every part of the input
    that is [cleaned] is a part of the result. *)
Theorem clean_profile_data_largest (data : gmap string json) :
  clean_profile_data data ⊆ data
  ∧ cleaned (clean_profile_data data)
  ∧ ∀ m, m ⊆ data → cleaned m → m ⊆ clean_profile_data data.
Proof.
  split; [ apply map_filter_subseteq | ]. split.
  - split.
    + destruct (clean_profile_data data !! "certifications") as [v|] eqn:Hv;
        [ | done ].
      apply clean_profile_data_lookup in Hv. tauto.
    + intros k v Hv. apply clean_profile_data_lookup in Hv. tauto.
  - intros m Hsub [Hcert Hvalues]. apply map_subseteq_spec. intros k v Hv.
    apply clean_profile_data_lookup.
    split; [ by apply (lookup_weaken m) | ].
    destruct (Hvalues k v Hv) as (? & ? & ?). repeat split; try done.
    intros ->. congruence.
Qed.

(** *** third_parties/twitter.py *)

Lemma slice_to_length {A} (n : Z) (l : list A) :
  length (slice_to n l)
  = if bool_decide (0 ≤ n) then Nat.min (Z.to_nat n) (length l)
    else Z.to_nat (Z.of_nat (length l) + n).
Proof.
  unfold slice_to. case_bool_decide; rewrite length_take; lia.
Qed.

Lemma slice_items_bound v n selected :
  slice_items v n = Ok selected → 0 ≤ n → Z.of_nat (length selected) ≤ n.
Proof.
  intros Hslice Hn.
  assert (Hlen : ∀ A (l : list A), Z.of_nat (length (slice_to n l)) ≤ n).
  { intros A l. rewrite slice_to_length, bool_decide_eq_true_2 by done. lia. }
  destruct v; simpl in Hslice; try done; injection Hslice as <-.
  - rewrite length_fmap. apply Hlen.
  - apply Hlen.
Qed.

(** What the loop of the fixture path returns, when it returns. *)
Lemma format_tweets_Ok W username records posts :
  format_tweets W username records = Ok posts →
  Forall raw_post records ∧ Forall2 (post_of W username) records posts.
Proof.
  revert posts. induction records as [|r records IH]; intros posts.
  - intros [= <-]. by split.
  - cbn [format_tweets]. destruct (getitem r "text") as [t|] eqn:Ht; [ | done ].
    simpl. destruct (getitem r "id") as [i|] eqn:Hi; [ | done ]. simpl.
    destruct (format_tweets W username records) as [rest|]; [ | done ].
    simpl. intros [= <-]. destruct (IH rest eq_refl) as [Hraw Hposts].
    assert (∃ d, r = JDict d ∧ d !! "text" = Some t ∧ d !! "id" = Some i)
      as (d & -> & Hdt & Hdi).
    { destruct r as [ | | | | | |d]; try done. exists d. simpl in Ht, Hi.
      destruct (d !! "text"); [ | done ]. destruct (d !! "id"); [ | done ].
      by simplify_eq. }
    split; constructor; try done.
    + by exists d, t, i.
    + exists d, t, i. simpl.
      eauto 10 using status_url_contains_username, status_url_contains_id.
Qed.

Lemma read_mock_tweets_Ok W username num_tweets resp posts :
  read_mock_tweets W username num_tweets resp = Ok posts →
  ∃ tweets_data selected,
    response_json resp = Ok tweets_data
    ∧ slice_items tweets_data num_tweets = Ok selected
    ∧ format_tweets W username selected = Ok posts.
Proof.
  unfold read_mock_tweets, check_status.
  destruct (raise_for_status resp); [ done | ]. simpl.
  destruct (response_json resp) as [tweets_data|]; [ | done ]. simpl.
  destruct (slice_items tweets_data num_tweets) as [selected|] eqn:Hs;
    [ | done ].
  simpl. eauto.
Qed.

Lemma load_live_tweets_Ok c username num_tweets tr posts tr' :
  load_live_tweets c username num_tweets tr = (Ok posts, tr') →
  posts = [] ∨ ∃ data, posts = live_posts username (slice_to num_tweets data).
Proof.
  unfold load_live_tweets. intros Hrun.
  apply bind_Ok in Hrun as ([u|] & tr1 & _ & Hrun); [ | done ].
  apply bind_Ok in Hrun as ([[|t data]|] & tr2 & _ & Hrun);
    injection Hrun as <- _; eauto.
Qed.

(** Where a returned list of posts comes from: it is empty, or built by the
    loop of the fixture path from the selected records, or built on the live
    path from the truncated timeline. *)
Lemma scrape_user_tweets_origin W username num_tweets use_mock tr posts :
  fst (scrape_user_tweets W username num_tweets use_mock tr) = Ok posts →
  posts = []
  ∨ (∃ tweets_data selected,
       slice_items tweets_data num_tweets = Ok selected
       ∧ format_tweets W username selected = Ok posts)
  ∨ (∃ data, posts = live_posts username (slice_to num_tweets data)).
Proof.
  assert (Hmock : ∀ tr0,
    fst (scrape_user_tweets_mock W username num_tweets tr0) = Ok posts →
    posts = []
    ∨ (∃ tweets_data selected,
         slice_items tweets_data num_tweets = Ok selected
         ∧ format_tweets W username selected = Ok posts)
    ∨ (∃ data, posts = live_posts username (slice_to num_tweets data))).
  { intros tr0. rewrite scrape_user_tweets_mock_eq. simpl.
    destruct (requests_get W tr0 EDEN_TWITTER_GIST [] 10) as [resp|];
      simpl; [ | intros [= <-]; by left ].
    destruct (read_mock_tweets W username num_tweets resp) as [l|] eqn:Hread;
      [ | intros [= <-]; by left ].
    intros [= ->].
    apply read_mock_tweets_Ok in Hread as (v & selected & _ & Hs & Hf).
    right; left. eauto. }
  unfold scrape_user_tweets.
  destruct use_mock, (twitter_client W) as [c|]; try apply Hmock.
  unfold try_except.
  destruct (load_live_tweets c username num_tweets tr) as [[l|e] tr1] eqn:Hlive.
  - simpl. intros [= ->].
    apply load_live_tweets_Ok in Hlive as [-> | Hdata]; auto.
  - destruct (is_TweepyException e); apply Hmock.
Qed.

Lemma scrape_user_tweets_length W username num_tweets use_mock tr posts :
  fst (scrape_user_tweets W username num_tweets use_mock tr) = Ok posts →
  0 ≤ num_tweets → Z.of_nat (length posts) ≤ num_tweets.
Proof.
  intros Hrun Hn.
  apply scrape_user_tweets_origin in Hrun
    as [-> | [(v & selected & Hs & Hf) | (data & ->)]].
  - simpl. lia.
  - apply format_tweets_Ok in Hf as [_ Hposts].
    apply Forall2_length in Hposts. rewrite <- Hposts.
    by apply (slice_items_bound v).
  - unfold live_posts. rewrite length_fmap, slice_to_length.
    rewrite bool_decide_eq_true_2 by done. lia.
Qed.

(** For a count that is not negative, [scrape_user_tweets] returns, in
    every mode and whatever the services do, a list of at most that many
    posts. *)
Theorem tweet_count_bound W username num_tweets use_mock tr :
  0 ≤ num_tweets →
  ∃ posts,
    fst (scrape_user_tweets W username num_tweets use_mock tr) = Ok posts
    ∧ Z.of_nat (length posts) ≤ num_tweets.
Proof.
  intros Hn.
  destruct (scrape_user_tweets_returns W username num_tweets use_mock tr)
    as [posts Hrun].
  exists posts. split; [ done | ].
  by apply (scrape_user_tweets_length W username num_tweets use_mock tr).
Qed.

Lemma tweet_count_bound_witness :
  0 ≤ 2
  ∧ ∃ posts,
      fst (scrape_user_tweets Examples.timeline_world "janedoe" 2 false [])
      = Ok posts
      ∧ Z.of_nat (length posts) ≤ 2.
Proof.
  split; [ lia | ].
  apply (tweet_count_bound Examples.timeline_world "janedoe" 2 false []). lia.
Defined.

(** Every post that [scrape_user_tweets] returns, in every mode, has an
    address of the form [https://twitter.com/<username>/status/<id>] with
    the handle exactly as it was passed in. *)
Theorem tweet_urls_use_handle W username num_tweets use_mock tr :
  ∃ posts,
    fst (scrape_user_tweets W username num_tweets use_mock tr) = Ok posts
    ∧ Forall (λ p, ∃ id,
                url p = "https://twitter.com/" +:+ username +:+ "/status/"
                          +:+ id)
             posts.
Proof.
  destruct (scrape_user_tweets_returns W username num_tweets use_mock tr)
    as [posts Hrun].
  exists posts. split; [ done | ].
  apply scrape_user_tweets_origin in Hrun
    as [-> | [(v & selected & Hs & Hf) | (data & ->)]].
  - constructor.
  - apply format_tweets_Ok in Hf as [_ Hposts].
    clear Hs.
    induction Hposts as [|r p rs ps (d & t & i & _ & _ & _ & _ & Hurl & _) _ IH];
      [ constructor | ].
    constructor; [ | done ]. eexists. exact Hurl.
  - unfold live_posts. apply Forall_fmap, Forall_forall. intros t _.
    by eexists.
Qed.

(** The fixture path is all or nothing: when one of the selected records
    is not an object with a [text] and an [id], the exception of the loop is
    swallowed with everything built so far and the empty list is returned. *)
Theorem malformed_record_empties_result W username num_tweets tr resp records :
  requests_get W tr EDEN_TWITTER_GIST [] 10 = Ok resp →
  raise_for_status resp = None →
  response_json resp = Ok (JList records) →
  Exists (λ r, ¬ raw_post r) (slice_to num_tweets records) →
  scrape_user_tweets_mock W username num_tweets tr
  = (Ok [], tr ++ [EvRequestsGet EDEN_TWITTER_GIST [] 10]).
Proof.
  intros Hget Hstatus Hjson Hbad.
  rewrite scrape_user_tweets_mock_eq, Hget. simpl.
  unfold read_mock_tweets, check_status. rewrite Hstatus, Hjson. simpl.
  destruct (format_tweets W username (slice_to num_tweets records))
    as [posts|] eqn:Hf; [ | done ].
  apply format_tweets_Ok in Hf as [Hraw _].
  apply Exists_exists in Hbad as (r & Hr & Hnot).
  rewrite Forall_forall in Hraw. by destruct (Hnot (Hraw r Hr)).
Qed.

Lemma malformed_record_empties_result_witness :
  Exists (λ r, ¬ raw_post r)
         (slice_to 3 [ Examples.raw_tweet (JInt 101) "Shipping a new course";
                       JDict {[ "id" := JInt 102 ]};
                       Examples.raw_tweet (JInt 103) "Reading about parsers" ])
  ∧ scrape_user_tweets_mock Examples.broken_tweet_world "janedoe" 3 []
    = (Ok [], [Examples.tweets_request]).
Proof.
  assert (Hbad : Exists (λ r, ¬ raw_post r)
            (slice_to 3
               [ Examples.raw_tweet (JInt 101) "Shipping a new course";
                 JDict {[ "id" := JInt 102 ]};
                 Examples.raw_tweet (JInt 103) "Reading about parsers" ])).
  { apply Exists_cons_tl, Exists_cons_hd.
    intros (d & t & i & Hd & Ht & _). injection Hd as <-.
    vm_compute in Ht. discriminate Ht. }
  split; [ exact Hbad | ].
  apply (malformed_record_empties_result Examples.broken_tweet_world
           "janedoe" 3 []
           {| raise_for_status := None;
              response_json := Ok Examples.tweets_fixture_broken |}
           _ eq_refl eq_refl eq_refl Hbad).
Defined.

(** How many posts the fixture path returns from a well-formed document:
    [min(count, available)] for a count that is not negative, and all but
    the last [-count] for a negative one (none if there are not that many).
    Records after the selected ones are not looked at. *)
Theorem mock_fetch_count W username num_tweets tr resp records :
  requests_get W tr EDEN_TWITTER_GIST [] 10 = Ok resp →
  raise_for_status resp = None →
  response_json resp = Ok (JList records) →
  Forall raw_post (slice_to num_tweets records) →
  ∃ posts,
    fst (scrape_user_tweets_mock W username num_tweets tr) = Ok posts
    ∧ Forall2 (post_of W username) (slice_to num_tweets records) posts
    ∧ length posts
      = if bool_decide (0 ≤ num_tweets)
        then Nat.min (Z.to_nat num_tweets) (length records)
        else Z.to_nat (Z.of_nat (length records) + num_tweets).
Proof.
  intros Hget Hstatus Hjson Hrecords.
  destruct (format_tweets_posts W username _ Hrecords) as (posts & Hf & Hposts).
  exists posts. split; [ | split; [ done | ] ].
  - rewrite scrape_user_tweets_mock_eq, Hget. simpl.
    unfold read_mock_tweets, check_status. rewrite Hstatus, Hjson. simpl.
    by rewrite Hf.
  - apply Forall2_length in Hposts. rewrite <- Hposts. apply slice_to_length.
Qed.

Lemma mock_fetch_count_witness :
  ∃ posts,
    fst (scrape_user_tweets_mock (Examples.offline_world "valid" false)
                                 "janedoe" (-1) []) = Ok posts
    ∧ length posts = 3%nat.
Proof.
  destruct (mock_fetch_count (Examples.offline_world "valid" false)
              "janedoe" (-1) []
              {| raise_for_status := None;
                 response_json := Ok Examples.tweets_fixture |}
              [ Examples.raw_tweet (JInt 101) "Shipping a new course";
                Examples.raw_tweet (JStr "102") "Agents are loops";
                Examples.raw_tweet (JInt 103) "Reading about parsers";
                Examples.raw_tweet (JInt 104) "Weekend hike" ]
              eq_refl eq_refl eq_refl)
    as (posts & Hrun & _ & Hlen).
  - repeat constructor; eexists _, _, _; (split; [ reflexivity | ]);
      split; reflexivity.
  - exists posts. split; [ exact Hrun | exact Hlen ].
Defined.

(** On the live path a user without posts ([data] is [None] or empty) gives
    the empty list at once: the two client calls are all that is made, and
    the fixture document is not requested. *)
Theorem empty_timeline_no_fallback W c username num_tweets tr u :
  twitter_client W = Some c →
  get_user c tr username = Ok (Some u) →
  (get_users_tweets c (tr ++ [EvGetUser username]) (user_id u)
                    (Z.min num_tweets 100) = Ok None
   ∨ get_users_tweets c (tr ++ [EvGetUser username]) (user_id u)
                      (Z.min num_tweets 100) = Ok (Some [])) →
  scrape_user_tweets W username num_tweets false tr
  = (Ok [],
     tr ++ [EvGetUser username;
            EvGetUsersTweets (user_id u) (Z.min num_tweets 100)]).
Proof.
  intros Hc Huser Htweets. unfold scrape_user_tweets. rewrite Hc.
  unfold try_except, load_live_tweets.
  erewrite bind_run by (rewrite extern_run, Huser; reflexivity).
  cbv zeta. unfold mbind, M_bind. rewrite extern_run.
  rewrite <- app_assoc. simpl.
  by destruct Htweets as [-> | ->].
Qed.

Lemma empty_timeline_no_fallback_witness :
  scrape_user_tweets Examples.silent_user_world "janedoe" 5 false []
  = (Ok [], [EvGetUser "janedoe"; EvGetUsersTweets 7 5]).
Proof.
  apply (empty_timeline_no_fallback Examples.silent_user_world
           (Examples.client_with []) "janedoe" 5 [] {| user_id := 7 |});
    [ reflexivity | reflexivity | by right ].
Defined.

(** On the live path a user with posts gets them in the order of the
    timeline, cut to the count on the client side; the service is asked for
    [min(count, 100)] posts, and the fixture document is not requested. *)
Theorem live_fetch_posts W c username num_tweets tr u t data :
  twitter_client W = Some c →
  get_user c tr username = Ok (Some u) →
  get_users_tweets c (tr ++ [EvGetUser username]) (user_id u)
                   (Z.min num_tweets 100) = Ok (Some (t :: data)) →
  scrape_user_tweets W username num_tweets false tr
  = (Ok ((λ tweet,
            {| text := JStr (tweet_text tweet);
               url := "https://twitter.com/" +:+ username +:+ "/status/"
                        +:+ pretty (tweet_id tweet) |})
           <$> slice_to num_tweets (t :: data)),
     tr ++ [EvGetUser username;
            EvGetUsersTweets (user_id u) (Z.min num_tweets 100)])
  ∧ Z.min num_tweets 100 ≤ 100.
Proof.
  intros Hc Huser Htweets. split; [ | lia ].
  unfold scrape_user_tweets. rewrite Hc.
  unfold try_except, load_live_tweets.
  erewrite bind_run by (rewrite extern_run, Huser; reflexivity).
  cbv zeta. unfold mbind, M_bind. rewrite extern_run, Htweets.
  by rewrite <- app_assoc.
Qed.

Lemma live_fetch_posts_witness :
  scrape_user_tweets Examples.timeline_world "JaneDoe" 3 false []
  = (Ok [ {| text := JStr "a"; url := "https://twitter.com/JaneDoe/status/9" |};
          {| text := JStr "b"; url := "https://twitter.com/JaneDoe/status/8" |};
          {| text := JStr "c"; url := "https://twitter.com/JaneDoe/status/7" |} ],
     [EvGetUser "JaneDoe"; EvGetUsersTweets 7 3]).
Proof.
  refine (proj1 (live_fetch_posts Examples.timeline_world
                   (Examples.client_with Examples.timeline) "JaneDoe" 3 []
                   {| user_id := 7 |} {| tweet_id := 9; tweet_text := "a" |}
                   [ {| tweet_id := 8; tweet_text := "b" |};
                     {| tweet_id := 7; tweet_text := "c" |};
                     {| tweet_id := 6; tweet_text := "d" |} ]
                   eq_refl eq_refl eq_refl)).
Defined.

(** With [use_mock=True], or when the client could not be built at import
    time, the Twitter client is not called at all: the one call made is the
    request of the fixture document. *)
Theorem mock_mode_skips_client W username num_tweets use_mock tr :
  use_mock = true ∨ twitter_client W = None →
  scrape_user_tweets W username num_tweets use_mock tr
  = scrape_user_tweets_mock W username num_tweets tr
  ∧ snd (scrape_user_tweets W username num_tweets use_mock tr)
    = tr ++ [EvRequestsGet EDEN_TWITTER_GIST [] 10].
Proof.
  intros Hmode.
  assert (Heq : scrape_user_tweets W username num_tweets use_mock tr
                = scrape_user_tweets_mock W username num_tweets tr).
  { unfold scrape_user_tweets.
    destruct Hmode as [-> | ->]; [ by destruct (twitter_client W) | ].
    by destruct use_mock. }
  split; [ done | ]. rewrite Heq. by rewrite scrape_user_tweets_mock_eq.
Qed.

Lemma mock_mode_skips_client_witness :
  (true = true ∨ twitter_client Examples.timeline_world = None)
  ∧ snd (scrape_user_tweets Examples.timeline_world "janedoe" 5 true [])
    = [Examples.tweets_request].
Proof.
  split; [ by left | ].
  refine (proj2 (mock_mode_skips_client Examples.timeline_world "janedoe" 5
                   true [] _)).
  by left.
Defined.

(** *** output_parsers.py *)

(** Round trip: the dictionary made by [to_dict] validates, and validation
    gives back the summary it was made from. *)
Theorem to_dict_validates (self : Summary) :
  model_validate (to_dict self) = Some self.
Proof.
  apply model_validate_Some. eexists. split; [ reflexivity | ].
  split; reflexivity.
Qed.

(** Validation keeps the [summary] and [facts] entries of an object and
    nothing else: [to_dict] of the validated result is the object
    restricted to these two keys, so any other key the model sent is
    dropped. *)
Theorem to_dict_of_validated (d : gmap string json) (res : Summary) :
  model_validate (JDict d) = Some res →
  to_dict res
  = JDict (filter (λ kv : string * json, kv.1 = "summary" ∨ kv.1 = "facts") d).
Proof.
  intros Hvalid.
  apply model_validate_Some in Hvalid as (d' & [= <-] & Hs & Hf).
  unfold to_dict. f_equal. apply map_eq. intros k. apply option_eq. intros v.
  rewrite map_lookup_filter_Some, lookup_insert_Some, lookup_singleton_Some.
  simpl. split.
  - intros [[<- <-] | [Hne [<- <-]]]; auto.
  - intros [Hv [-> | ->]]; [ left | right ]; split; try done;
      [ congruence | split; [ done | congruence ] ].
Qed.

Lemma to_dict_of_validated_witness :
  to_dict {| summary := "Jane Doe is an engineer."; facts := ["Likes hiking"] |}
  = JDict (filter (λ kv : string * json, kv.1 = "summary" ∨ kv.1 = "facts")
             {[ "summary" := JStr "Jane Doe is an engineer.";
                "facts" := JList [JStr "Likes hiking"];
                "confidence" := JInt 3 ]}).
Proof.
  apply (to_dict_of_validated
           {[ "summary" := JStr "Jane Doe is an engineer.";
              "facts" := JList [JStr "Likes hiking"];
              "confidence" := JInt 3 ]}
           {| summary := "Jane Doe is an engineer.";
              facts := ["Likes hiking"] |}).
  reflexivity.
Defined.

Lemma contains_app_l (sub pre s : string) :
  contains sub s → contains sub (pre +:+ s).
Proof.
  intros (p & q & ->). exists (pre +:+ p), q. by rewrite string_app_assoc.
Qed.

Lemma contains_app_r (sub s post : string) :
  contains sub s → contains sub (s +:+ post).
Proof.
  intros (p & q & ->). exists p, (q +:+ post). by rewrite !string_app_assoc.
Qed.

Lemma contains_refl (s : string) : contains s s.
Proof. exists "", "". by rewrite string_app_nil_r. Qed.

Lemma join_contains (sep x : string) (l : list string) :
  x ∈ l → contains x (join sep l).
Proof.
  induction l as [|y l IH]; [ by intros ?%elem_of_nil | ].
  intros Hx. apply elem_of_cons in Hx as [-> | Hx].
  - destruct l; [ apply contains_refl | ].
    cbn [join]. apply contains_app_r, contains_refl.
  - destruct l as [|z l]; [ by apply elem_of_nil in Hx | ].
    cbn [join]. apply contains_app_l, contains_app_l. by apply IH.
Qed.

(** The text of a summary starts with [Summary: ] and the summary, shows
    every fact after a bullet, and is the bare heading when there are no
    facts. *)
Theorem Summary_str_shows_facts (self : Summary) :
  (∃ rest, Summary_str self = "Summary: " +:+ summary self +:+ rest)
  ∧ (∀ fact, fact ∈ facts self → contains ("• " +:+ fact) (Summary_str self))
  ∧ (facts self = [] →
     Summary_str self
     = "Summary: " +:+ summary self +:+ newline +:+ newline
         +:+ "Interesting Facts:" +:+ newline).
Proof.
  unfold Summary_str. cbv zeta. split; [ by eexists | ]. split.
  - intros fact Hfact. do 6 apply contains_app_l.
    apply join_contains.
    by apply (list_elem_of_fmap_2 (λ fact, "• " +:+ fact)).
  - intros ->. simpl. by rewrite string_app_nil_r.
Qed.

Example Summary_str_two_facts :
  Summary_str {| summary := "Jane Doe is an engineer.";
                 facts := ["Teaches a course"; "Likes hiking"] |}
  = "Summary: Jane Doe is an engineer." +:+ newline +:+ newline
      +:+ "Interesting Facts:" +:+ newline
      +:+ "• Teaches a course" +:+ newline +:+ "• Likes hiking".
Proof. vm_compute. reflexivity. Qed.

(** *** ice_breaker.py *)



(** When the lookup of the profile address raises, the run stops there:
    that lookup is the only call, so nothing is fetched and the model is
    not called; the boundary answers 500. *)
Theorem profile_lookup_failure_aborts W form name tr e :
  form_get form "name" = Some name → name ≠ "" →
  linkedin_lookup_agent W tr name = Raise e →
  ice_break_with W name tr = (Raise e, tr ++ [EvLinkedinLookup name])
  ∧ process W form tr
    = (Ok (JDict {[ "error" :=
                      JStr "Failed to generate ice breaker content. Please try again.";
                    "details" :=
                      if app_debug W then JStr (exn_str e) else JNull ]},
           500),
       tr ++ [EvLinkedinLookup name]).
Proof.
  intros Hname Hne Hlookup.
  assert (Hrun : ice_break_with W name tr
                 = (Raise e, tr ++ [EvLinkedinLookup name])).
  { unfold ice_break_with, mbind, M_bind. by rewrite extern_run, Hlookup. }
  split; [ done | ]. by apply (process_core_failure W form name).
Qed.

Lemma profile_lookup_failure_aborts_witness :
  process Examples.lookup_down_world Examples.jane_form []
  = (Ok (JDict {[ "error" :=
                    JStr "Failed to generate ice breaker content. Please try again.";
                  "details" := JNull ]}, 500),
     [EvLinkedinLookup "Jane Doe"]).
Proof.
  refine (proj2 (profile_lookup_failure_aborts Examples.lookup_down_world
                   Examples.jane_form "Jane Doe" []
                   (Exn OtherException "rate limit") eq_refl _ eq_refl)).
  discriminate.
Defined.

(** When the lookup of the handle raises, the profile has been fetched but
    the run stops: no post is requested and the model is not called. *)
Theorem handle_lookup_failure_aborts
    W name tr linkedin_username linkedin_data tr1 e :
  linkedin_lookup_agent W tr name = Ok linkedin_username →
  scrape_linkedin_profile W linkedin_username false 10
                          (tr ++ [EvLinkedinLookup name])
  = (Ok linkedin_data, tr1) →
  twitter_lookup_agent W tr1 name = Raise e →
  ice_break_with W name tr = (Raise e, tr1 ++ [EvTwitterLookup name]).
Proof.
  intros Hurl Hprofile Hhandle. unfold ice_break_with.
  erewrite bind_run by (rewrite extern_run, Hurl; reflexivity).
  erewrite bind_run by exact Hprofile.
  unfold mbind, M_bind. by rewrite extern_run, Hhandle.
Qed.

Lemma handle_lookup_failure_aborts_witness :
  ice_break_with Examples.handle_lookup_down_world "Jane Doe" []
  = (Raise (Exn OtherException "rate limit"),
     [EvLinkedinLookup "Jane Doe"; Examples.fixture_request;
      EvTwitterLookup "Jane Doe"]).
Proof.
  apply (handle_lookup_failure_aborts Examples.handle_lookup_down_world
           "Jane Doe" [] Examples.jane_doe_url Examples.jane_doe_cleaned
           [EvLinkedinLookup "Jane Doe"; Examples.fixture_request]
           (Exn OtherException "rate limit"));
    [ reflexivity | vm_compute; reflexivity | reflexivity ].
Defined.

(** The Twitter side cannot fail a request: once the two lookups and the
    profile fetch have returned, a model that answers with a valid
    completion makes the run return, whatever the Twitter client and the
    posts fixture do. *)
Theorem twitter_outage_is_harmless
    W name tr linkedin_username linkedin_data tr1 twitter_username completion
    res :
  linkedin_lookup_agent W tr name = Ok linkedin_username →
  scrape_linkedin_profile W linkedin_username false 10
                          (tr ++ [EvLinkedinLookup name])
  = (Ok linkedin_data, tr1) →
  twitter_lookup_agent W tr1 name = Ok twitter_username →
  (∀ tr0 tweets, llm W tr0 linkedin_data tweets = Ok completion) →
  parse_json_markdown W completion ≫= model_validate = Some res →
  ∃ tr', ice_break_with W name tr
         = (Ok (res, linkedin_data !! "PhotoUrl"), tr').
Proof.
  intros Hurl Hprofile Hhandle Hllm Hparse. unfold ice_break_with.
  erewrite bind_run by (rewrite extern_run, Hurl; reflexivity).
  erewrite bind_run by exact Hprofile.
  erewrite bind_run by (rewrite extern_run, Hhandle; reflexivity).
  destruct (scrape_user_tweets_returns W twitter_username 5 false
              (tr1 ++ [EvTwitterLookup name])) as [tweets Htweets].
  destruct (scrape_user_tweets W twitter_username 5 false
              (tr1 ++ [EvTwitterLookup name])) as [r tr2] eqn:Hrun.
  simpl in Htweets. subst r.
  erewrite bind_run by exact Hrun.
  unfold chain_invoke, mbind, M_bind. rewrite extern_run, Hllm.
  unfold lift, summary_parser. rewrite Hparse. by eexists.
Qed.

Lemma twitter_outage_is_harmless_witness :
  ∃ tr', ice_break_with Examples.twitter_down_world "Jane Doe" []
         = (Ok ({| summary := "Jane Doe is an engineer.";
                   facts := ["Teaches a course"; "Likes hiking"] |},
                Examples.jane_doe_cleaned !! "PhotoUrl"), tr').
Proof.
  apply (twitter_outage_is_harmless Examples.twitter_down_world "Jane Doe" []
           Examples.jane_doe_url Examples.jane_doe_cleaned
           [EvLinkedinLookup "Jane Doe"; Examples.fixture_request]
           "janedoe" "valid");
    [ reflexivity | vm_compute; reflexivity | reflexivity
    | intros; reflexivity | reflexivity ].
Defined.

(** *** app.py *)

(** [process] never raises and answers with one of three statuses: 400
    exactly when the name is missing or empty, 200 exactly when the
    pipeline returned, 500 exactly when it raised. *)
Theorem process_answers W form tr :
  ∃ body status,
    fst (process W form tr) = Ok (body, status)
    ∧ ((status = 400
        ∧ str_truthy (form_get form "name") = false
        ∧ body = JDict {[ "error" := JStr "Name parameter is required" ]})
       ∨ (status = 200
          ∧ ∃ name res photo,
              form_get form "name" = Some name ∧ name ≠ ""
              ∧ fst (ice_break_with W name tr) = Ok (res, photo)
              ∧ body = JDict {[ "summary_and_facts" := to_dict res;
                                "photoUrl" := or_empty photo ]})
       ∨ (status = 500
          ∧ ∃ name e,
              form_get form "name" = Some name ∧ name ≠ ""
              ∧ fst (ice_break_with W name tr) = Raise e
              ∧ body = JDict {[ "error" :=
                                  JStr "Failed to generate ice breaker content. Please try again.";
                                "details" :=
                                  if app_debug W then JStr (exn_str e)
                                  else JNull ]})).
Proof.
  unfold process, try_except.
  destruct (form_get form "name") as [name|] eqn:Hname; simpl;
    [ | eexists _, _; split; [ reflexivity | by left ] ].
  case_bool_decide as Hne; simpl;
    [ eexists _, _; split; [ reflexivity | by left ] | ].
  unfold mbind, M_bind.
  destruct (ice_break_with W name tr) as [[[res photo]|e] tr'] eqn:Hrun;
    simpl; eexists _, _; (split; [ reflexivity | ]).
  - right; left. split; [ done | ]. exists name, res, photo.
    by rewrite Hrun.
  - right; right. split; [ done | ]. exists name, e. by rewrite Hrun.
Qed.

(** A 200 answer carries, verbatim, the summary and the facts held by the
    completion that the model returned in this run, and a [photoUrl] that
    is a non-empty value of the profile or the empty string, never
    [null]. *)
Theorem success_body_verbatim W form tr body tr' :
  process W form tr = (Ok (body, 200), tr') →
  ∃ name information twitter_posts mid completion d s f p,
    form_get form "name" = Some name
    ∧ tr' = tr ++ EvLinkedinLookup name :: mid
               ++ [EvChainInvoke information twitter_posts]
    ∧ llm W (tr ++ EvLinkedinLookup name :: mid) information twitter_posts
      = Ok completion
    ∧ parse_json_markdown W completion = Some (JDict d)
    ∧ d !! "summary" = Some (JStr s)
    ∧ d !! "facts" = Some (JList (JStr <$> f))
    ∧ body = JDict {[ "summary_and_facts" :=
                        JDict {[ "summary" := JStr s;
                                 "facts" := JList (JStr <$> f) ]};
                      "photoUrl" := p ]}
    ∧ (p = JStr "" ∨ py_truthy p = true)
    ∧ p ≠ JNull.
Proof.
  unfold process, try_except.
  destruct (form_get form "name") as [name|]; simpl; [ | done ].
  case_bool_decide; simpl; [ done | ].
  unfold mbind, M_bind.
  destruct (ice_break_with W name tr) as [[[res photo]|e] tr1] eqn:Hrun;
    simpl; [ | done ].
  intros [= <- <-]. apply ice_break_with_Ok in Hrun
    as (url & data & handle & posts & completion & r1 & r2
        & _ & _ & _ & _ & _ & _ & Hllm & Hparse & _ & Htrace).
  apply summary_parser_Ok in Hparse as (obj & Hdecode & Hvalid).
  apply model_validate_Some in Hvalid as (d & -> & Hs & Hf).
  assert (Hpre : (((tr ++ [EvLinkedinLookup name]) ++ r1)
                    ++ [EvTwitterLookup name]) ++ r2
                 = tr ++ EvLinkedinLookup name
                      :: (r1 ++ EvTwitterLookup name :: r2)).
  { by rewrite <- !app_assoc. }
  rewrite Hpre in Hllm.
  exists name, data, posts, (r1 ++ EvTwitterLookup name :: r2), completion, d,
    (summary res), (facts res), (or_empty photo).
  split; [ done | ]. split; [ by rewrite Htrace, <- !app_assoc | ].
  repeat split; try done.
  - unfold or_empty. destruct photo as [v|]; [ | by left ].
    destruct (py_truthy v) eqn:Hv; auto.
  - unfold or_empty. destruct photo as [v|]; [ | done ].
    destruct (py_truthy v) eqn:Hv; [ | done ]. by destruct v.
Qed.

Lemma success_body_verbatim_witness :
  ∃ name information twitter_posts mid completion d s f p,
    form_get Examples.jane_form "name" = Some name
    ∧ Examples.offline_trace
        ++ [EvChainInvoke Examples.jane_doe_cleaned Examples.offline_tweets]
      = [] ++ EvLinkedinLookup name :: mid
           ++ [EvChainInvoke information twitter_posts]
    ∧ llm (Examples.offline_world "valid" false)
          ([] ++ EvLinkedinLookup name :: mid) information twitter_posts
      = Ok completion
    ∧ parse_json_markdown (Examples.offline_world "valid" false) completion
      = Some (JDict d)
    ∧ d !! "summary" = Some (JStr s)
    ∧ d !! "facts" = Some (JList (JStr <$> f))
    ∧ JDict {[ "summary_and_facts" :=
                 JDict {[ "summary" := JStr "Jane Doe is an engineer.";
                          "facts" := JList [JStr "Teaches a course";
                                            JStr "Likes hiking"] ]};
               "photoUrl" := JStr "" ]}
      = JDict {[ "summary_and_facts" :=
                   JDict {[ "summary" := JStr s;
                            "facts" := JList (JStr <$> f) ]};
                 "photoUrl" := p ]}
    ∧ (p = JStr "" ∨ py_truthy p = true)
    ∧ p ≠ JNull.
Proof.
  apply (success_body_verbatim (Examples.offline_world "valid" false)
           Examples.jane_form []
           (JDict {[ "summary_and_facts" :=
                       JDict {[ "summary" := JStr "Jane Doe is an engineer.";
                                "facts" := JList [JStr "Teaches a course";
                                                  JStr "Likes hiking"] ]};
                     "photoUrl" := JStr "" ]})
           (Examples.offline_trace
              ++ [EvChainInvoke Examples.jane_doe_cleaned
                                Examples.offline_tweets])).
  vm_compute. reflexivity.
Defined.
